(** * frais-pro-bot: receipt parsing and the pending-expense flow of [bot.py]

    A shallow embedding of [src/bot.py]: the receipt parser
    [parse_ticket_info], the in-memory store [frais_data], the per-user
    dictionary [context.user_data] and the handlers registered in [main],
    followed by the properties of the specification checked against them.

    Modelling conventions.
    - A Python [str] is the [string] of its UTF-8 bytes.  The classes [\d]
      and [\s] and [str.lower] are those of Python on the ASCII characters;
      the euro sign is its three bytes.  A statement about a text that
      reaches a regular expression, [float], [int] or [zfill] carries the
      hypothesis that the text lies in that range: [texte_simple] (ASCII
      characters and euro signs) for a receipt, [est_ascii] for a typed
      message or a command argument.
    - A Python [float] is a rational number ([Q]).  [py_float] reads the
      literals [float] reads on ASCII text (white space, sign, digits with
      single underscores, fraction, exponent) and gives their exact value,
      which [float] rounds to a double; sums and quotients are exact.  The
      words [inf], [infinity] and [nan], which [float] accepts and which
      have no rational value, are recognised by [mot_special] and excluded
      by hypothesis where a typed amount may be rejected.
    - An exception is a value of [exn]; a handler is a state transformer
      over [world] that returns normally or raises.
    - [world] holds the module-level list [frais_data], shared by all users,
      and the [context.user_data] of one user; [datetime.now()] is the
      argument [now] of a handler.
    - The text of a reply is abstracted to a constructor of [reply] carrying
      the values the text is formatted from. *)

From Stdlib Require Import String Ascii List ZArith NArith QArith Qfield Bool Lia.
From Stdlib Require Import DecimalString Sorted Permutation FinFun Setoid Morphisms.
From Stdlib Require Import DecimalN DecimalPos.
Import ListNotations.

Local Close Scope Q_scope.
Local Open Scope list_scope.
Local Open Scope string_scope.

(** ** Python built-ins used by the bot *)

Definition code (c : ascii) : N := N_of_ascii c.

(** [\d] on the ASCII characters. *)
Definition is_digit (c : ascii) : bool :=
  ((48 <=? code c) && (code c <=? 57))%N.

(** [\s] on the ASCII characters: tab to carriage return, the four
    separators 0x1c-0x1f and the space. *)
Definition is_space (c : ascii) : bool :=
  (((9 <=? code c) && (code c <=? 13)) || ((28 <=? code c) && (code c <=? 32)))%N.

Definition lower_char (c : ascii) : ascii :=
  if ((65 <=? code c) && (code c <=? 90))%N then ascii_of_N (code c + 32) else c.

(** [s.lower()] *)
Fixpoint lower (s : string) : string :=
  match s with
  | EmptyString => EmptyString
  | String c s' => String (lower_char c) (lower s')
  end.

(** [s.replace(old, new)] for one-character [old] and [new]. *)
Fixpoint replace (old new : ascii) (s : string) : string :=
  match s with
  | EmptyString => EmptyString
  | String c s' => String (if Ascii.eqb c old then new else c) (replace old new s')
  end.

(** [s.endswith(suffix)] *)
Fixpoint endswith (s suffix : string) : bool :=
  if String.eqb s suffix then true
  else match s with
       | EmptyString => false
       | String _ s' => endswith s' suffix
       end.

(** [s.startswith(p)], returning what follows the prefix. *)
Fixpoint strip_prefix (p s : string) : option string :=
  match p with
  | EmptyString => Some s
  | String a p' =>
      match s with
      | String b s' => if Ascii.eqb a b then strip_prefix p' s' else None
      | EmptyString => None
      end
  end.


(** [s.zfill(2)]: a sign stays in front of the padding. *)
Definition zfill2 (s : string) : string :=
  match s with
  | EmptyString => "00"
  | String c EmptyString =>
      if Ascii.eqb c "+" || Ascii.eqb c "-" then String c "0" else String "0" s
  | _ => s
  end.

(** [str(n)] for a non-negative integer. *)
Definition str_of_N (n : N) : string := NilZero.string_of_uint (N.to_uint n).

Fixpoint zeros (n : nat) : string :=
  match n with
  | O => EmptyString
  | S n' => String "0" (zeros n')
  end.

(** [f"{n:0{w}d}"] *)
Definition pad_left (w : nat) (s : string) : string :=
  zeros (w - String.length s) ++ s.

Definition digit_val (c : ascii) : Z := Z.of_N (code c) - 48.

(** The longest prefix that is a run of digits with single underscores
    between them, as [float] and [int] group digits: the digits of the run
    and what follows it. *)
Fixpoint span_digits (s : string) : string * string :=
  match s with
  | String c s' =>
      if is_digit c then
        let (d, r) :=
          match s' with
          | String u t =>
              if Ascii.eqb u "_" then
                match t with
                | String d' _ => if is_digit d' then span_digits t
                                 else (EmptyString, s')
                | EmptyString => (EmptyString, s')
                end
              else span_digits s'
          | EmptyString => (EmptyString, EmptyString)
          end in
        (String c d, r)
      else (EmptyString, s)
  | EmptyString => (EmptyString, EmptyString)
  end.

Fixpoint Z_of_digits (acc : Z) (s : string) : Z :=
  match s with
  | EmptyString => acc
  | String c s' => Z_of_digits (10 * acc + digit_val c) s'
  end.

(** The ASCII white space [float] and [int] strip: tab to carriage return
    and the space (the separators 0x1c-0x1f are not stripped). *)
Definition is_blank (c : ascii) : bool :=
  (((9 <=? code c) && (code c <=? 13)) || (code c =? 32))%N.

Fixpoint lstrip (s : string) : string :=
  match s with
  | String c s' => if is_blank c then lstrip s' else s
  | EmptyString => EmptyString
  end.

Fixpoint all_space (s : string) : bool :=
  match s with
  | String c s' => is_blank c && all_space s'
  | EmptyString => true
  end.

(** An optional sign: [true] for a minus. *)
Definition split_sign (s : string) : bool * string :=
  match s with
  | String "-" s' => (true, s')
  | String "+" s' => (false, s')
  | _ => (false, s)
  end.

(** The exponent part of a float literal, up to trailing white space. *)
Definition float_exponent (s : string) : option Z :=
  match s with
  | String c s' =>
      if Ascii.eqb c "e" || Ascii.eqb c "E" then
        let (neg, s1) := split_sign s' in
        let (ds, rest) := span_digits s1 in
        match ds with
        | EmptyString => None
        | _ => if all_space rest
               then Some (if neg then - Z_of_digits 0 ds else Z_of_digits 0 ds)%Z
               else None
        end
      else if all_space s then Some 0%Z else None
  | EmptyString => Some 0%Z
  end.

(** [float(s)] on ASCII text: white space around, a sign, digits with an
    optional fraction, an optional exponent; [Some q] when [float] reads a
    decimal literal, of exact value [q].  On a text that is not one of the
    words of [mot_special], [None] is [ValueError]. *)
Definition py_float (s : string) : option Q :=
  let (neg, s1) := split_sign (lstrip s) in
  let (ip, s2) := span_digits s1 in
  let (fp, s3) :=
    match s2 with
    | String "." r => span_digits r
    | _ => (EmptyString, s2)
    end in
  match ip ++ fp with
  | EmptyString => None
  | mant =>
      match float_exponent s3 with
      | None => None
      | Some e =>
          let n := Z_of_digits 0 mant in
          let e' := (e - Z.of_nat (String.length fp))%Z in
          let q := if (0 <=? e')%Z
                   then inject_Z (n * 10 ^ e')
                   else Qmake n (Z.to_pos (10 ^ (- e'))) in
          Some (Qred (if neg then Qopp q else q))
      end
  end.

(** [int(s)] on ASCII text: white space around, a sign, digits.  [None] is
    [ValueError]. *)
Definition py_int (s : string) : option Z :=
  let (neg, s1) := split_sign (lstrip s) in
  let (ds, rest) := span_digits s1 in
  match ds with
  | EmptyString => None
  | _ => if all_space rest
         then Some (if neg then - Z_of_digits 0 ds else Z_of_digits 0 ds)%Z
         else None
  end.

(** The words [float] reads as an infinity or a NaN: [inf], [infinity] or
    [nan] in either case, after an optional sign, white space around. *)
Definition mot_special (s : string) : bool :=
  let (_, s1) := split_sign (lstrip s) in
  existsb (fun w => match strip_prefix w (lower s1) with
                    | Some r => all_space r
                    | None => false
                    end)
          ["inf"; "infinity"; "nan"].

(** Every character is an ASCII character. *)
Fixpoint est_ascii (s : string) : bool :=
  match s with
  | EmptyString => true
  | String c s' => (code c <? 128)%N && est_ascii s'
  end.

(** ASCII characters and euro signs only. *)
Fixpoint texte_simple (s : string) : bool :=
  match s with
  | EmptyString => true
  | String c s' =>
      if (code c <? 128)%N then texte_simple s'
      else match s' with
           | String c2 (String c3 r) =>
               Ascii.eqb c "226" && Ascii.eqb c2 "130" && Ascii.eqb c3 "172"
               && texte_simple r
           | _ => false
           end
  end.

(** Truth value of an optional float: [None] and zero are false. *)
Definition truthy (m : option Q) : bool :=
  match m with
  | None => false
  | Some q => negb (Qeq_bool q 0)
  end.

(** [datetime.now()]: the fields the bot reads. *)
Record datetime := mk_datetime {
  dt_year : N;
  dt_month : N;
  dt_day : N;
  dt_clock : N
}.

(** [now.strftime("%m/%Y")] *)
Definition strftime_mY (now : datetime) : string :=
  pad_left 2 (str_of_N (dt_month now)) ++ "/" ++ pad_left 4 (str_of_N (dt_year now)).

(** [now.strftime("%d/%m/%Y")] *)
Definition strftime_dmY (now : datetime) : string :=
  pad_left 2 (str_of_N (dt_day now)) ++ "/" ++ strftime_mY now.

(** ** Regular expressions: the fragment of [re] the patterns use *)

Inductive cclass :=
| Digit                          (* \d *)
| Space                          (* \s *)
| Any_of (cs : list ascii)       (* [abc] *)
| Either (a b : cclass).         (* [a b] *)

Fixpoint in_class (k : cclass) (c : ascii) : bool :=
  match k with
  | Digit => is_digit c
  | Space => is_space c
  | Any_of cs => existsb (Ascii.eqb c) cs
  | Either a b => in_class a c || in_class b c
  end.

Inductive regex :=
| Lit (l : string)               (* literal text *)
| One (k : cclass)               (* one character of a class *)
| Rep (n : nat) (k : cclass)     (* k{n} *)
| Star (k : cclass)              (* k*, greedy *)
| Plus (k : cclass)              (* k+, greedy *)
| Group (r : regex)              (* ( r ) *)
| Seq (r1 r2 : regex).           (* r1 r2 *)

Fixpoint m_rep (k : cclass) (n : nat) (s : string) : option string :=
  match n with
  | O => Some s
  | S n' =>
      match s with
      | String c s' => if in_class k c then m_rep k n' s' else None
      | EmptyString => None
      end
  end.

(** Greedy repetition: the longest run first, then shorter ones. *)
Fixpoint m_star {A} (k : cclass) (s : string) (f : string -> option A) : option A :=
  match s with
  | String c s' =>
      if in_class k c
      then match m_star k s' f with
           | Some r => Some r
           | None => f s
           end
      else f s
  | EmptyString => f s
  end.

(** What was consumed between the input [s] and its suffix [s']. *)
Definition consumed (s s' : string) : string :=
  substring 0 (String.length s - String.length s') s.

(** Backtracking matcher in continuation-passing style: [f] receives the
    rest of the input and the groups closed so far. *)
Fixpoint m (r : regex) (s : string) (gs : list string)
  (f : string -> list string -> option (list string)) : option (list string) :=
  match r with
  | Lit l => match strip_prefix l s with
             | Some s' => f s' gs
             | None => None
             end
  | One k => match s with
             | String c s' => if in_class k c then f s' gs else None
             | EmptyString => None
             end
  | Rep n k => match m_rep k n s with
               | Some s' => f s' gs
               | None => None
               end
  | Star k => m_star k s (fun s' => f s' gs)
  | Plus k => match s with
              | String c s' =>
                  if in_class k c then m_star k s' (fun s'' => f s'' gs) else None
              | EmptyString => None
              end
  | Group r1 => m r1 s gs (fun s' gs' => f s' (gs' ++ [consumed s s'])%list)
  | Seq r1 r2 => m r1 s gs (fun s' gs' => m r2 s' gs' f)
  end.

(** [re.match(r, s)]: the groups of a match at the start of [s]. *)
Definition re_match (r : regex) (s : string) : option (list string) :=
  m r s [] (fun _ gs => Some gs).

(** [re.search(r, s)]: the groups of the leftmost match. *)
Fixpoint re_search (r : regex) (s : string) : option (list string) :=
  match re_match r s with
  | Some gs => Some gs
  | None => match s with
            | EmptyString => None
            | String _ s' => re_search r s'
            end
  end.

(** ** Exceptions *)

Inductive exn := ValueError | KeyError | TypeError | IndexError | ZeroDivisionError.

Inductive outcome (A : Type) :=
| Ret (a : A)
| Raise (e : exn).

Arguments Ret {A} a.
Arguments Raise {A} e.

(** ** [parse_ticket_info] *)

(** The dictionary built by [parse_ticket_info]. *)
Record info := mk_info {
  info_montant : option Q;
  info_date : string;
  texte_complet : string
}.

(** [(\d+[.,]\d{2})] *)
Definition montant_group : regex :=
  Group (Seq (Plus Digit) (Seq (One (Any_of ["."%char; ","%char])) (Rep 2 Digit))).

Definition pattern_montant_euro : regex :=        (* (\d+[.,]\d{2})\s*€ *)
  Seq montant_group (Seq (Star Space) (Lit "€")).
Definition pattern_euro_montant : regex :=        (* €\s*(\d+[.,]\d{2}) *)
  Seq (Lit "€") (Seq (Star Space) montant_group).
Definition pattern_total : regex :=               (* total[:\s]+(\d+[.,]\d{2}) *)
  Seq (Lit "total") (Seq (Plus (Either (Any_of [":"%char]) Space)) montant_group).
Definition pattern_montant_eur : regex :=         (* (\d+[.,]\d{2})\s*eur *)
  Seq montant_group (Seq (Star Space) (Lit "eur")).

Definition montant_patterns : list regex :=
  [pattern_montant_euro; pattern_euro_montant; pattern_total; pattern_montant_eur].

(** [(\d{2})[/-](\d{2})[/-](\d{n})] *)
Definition date_pattern (n : nat) : regex :=
  Seq (Group (Rep 2 Digit))
    (Seq (One (Any_of ["/"%char; "-"%char]))
       (Seq (Group (Rep 2 Digit))
          (Seq (One (Any_of ["/"%char; "-"%char])) (Group (Rep n Digit))))).

Definition date_patterns : list regex := [date_pattern 4; date_pattern 2].

(** The loop over [montant_patterns]: the first pattern that is found
    anywhere in the text decides, [match.group(1)] is converted. *)
Fixpoint search_montant (patterns : list regex) (t : string) : outcome (option Q) :=
  match patterns with
  | [] => Ret None
  | pattern :: rest =>
      match re_search pattern t with
      | Some gs =>
          match nth_error gs 0 with
          | None => Raise IndexError
          | Some g =>
              match py_float (replace "," "." g) with
              | Some v => Ret (Some v)
              | None => Raise ValueError
              end
          end
      | None => search_montant rest t
      end
  end.

(** The loop over [date_patterns]; a failed unpacking of [match.groups()]
    is the [except: continue]. *)
Fixpoint search_date (patterns : list regex) (text : string) : option string :=
  match patterns with
  | [] => None
  | pattern :: rest =>
      match re_search pattern text with
      | Some [jour; mois; annee] =>
          let annee' := if Nat.eqb (String.length annee) 2 then "20" ++ annee else annee in
          Some (jour ++ "/" ++ mois ++ "/" ++ annee')
      | _ => search_date rest text
      end
  end.

Definition parse_ticket_info (now : datetime) (text : string) : outcome info :=
  match search_montant montant_patterns (lower text) with
  | Raise e => Raise e
  | Ret montant =>
      let date :=
        match search_date date_patterns text with
        | Some (String c d) => String c d
        | _ => strftime_dmY now       (* if not info['date'] *)
        end in
      Ret (mk_info montant date text)
  end.

(** ** Data model *)

Definition CATEGORIES : list string :=
  [ "Repas professionnels";
    "Carburant/Déplacements";
    "Matériel médical";
    "Fournitures";
    "Formations";
    "Téléphone/Internet";
    "Autres" ].

(** [lst[i]] with Python's negative indices. *)
Definition py_index {A} (l : list A) (i : Z) : outcome A :=
  let n := Z.of_nat (List.length l) in
  let j := if (i <? 0)%Z then (i + n)%Z else i in
  if (j <? 0)%Z then Raise IndexError
  else match nth_error l (Z.to_nat j) with
       | Some a => Ret a
       | None => Raise IndexError
       end.

(** An entry of [frais_data]. *)
Record frais := mk_frais {
  frais_id : Z;
  frais_date : string;
  frais_montant : Q;
  frais_categorie : string;
  frais_timestamp : datetime
}.

(** The keys of [context.user_data] the bot uses, for one user. *)
Record user_data := mk_user_data {
  pending_frais : option info;
  pending_category : option string
}.

(** What the bot sends back; the constructors stand for the message texts. *)
Inductive reply :=
| Bienvenue
| Aide
| PhotoRecue
| TicketIllisible
| TicketAnalyse (montant : option Q) (date : string)
| ErreurAnalyse
| SessionExpiree
| DemandeMontant
| FraisEnregistre (categorie : string) (montant : Q) (date : string) (total_mois : Q)
| MontantInvalide
| AucunFraisPour (filtre : string)
| Recapitulatif (filtre : string) (lignes : list (string * Q * nat)) (total : Q)
| AucunFraisEnregistre
| Statistiques (lignes : list (string * Q * Q)) (total : Q)
| AucunFraisAExporter
| GenerationExcel
| DocumentExcel (filename : string) (rows : list (string * string * Q)) (count : nat) (total : Q)
| AucunFraisListe
| ListeFrais (lignes : list frais)
| UsageSupprimer
| FraisSupprime (frais_id : Z)
| FraisIntrouvable (frais_id : Z)
| IdInvalide.

(** The module-level list [frais_data], the user's dictionary and the
    messages sent so far. *)
Record world := mk_world {
  frais_data : list frais;
  user : user_data;
  sent : list reply
}.

Definition initial_world : world := mk_world [] (mk_user_data None None) [].

(** ** Handlers as state transformers that may raise *)

Definition M (A : Type) : Type := world -> outcome A * world.

Definition ret {A} (a : A) : M A := fun w => (Ret a, w).

Definition bind {A B} (c : M A) (k : A -> M B) : M B :=
  fun w => match c w with
           | (Ret a, w') => k a w'
           | (Raise e, w') => (Raise e, w')
           end.

Notation "x <- c ;; k" := (bind c (fun x => k))
  (at level 61, c at next level, right associativity).
Notation "c ;; k" := (bind c (fun _ => k))
  (at level 61, right associativity).

Definition lift {A} (o : outcome A) : M A := fun w => (o, w).

(** [try: c  except <handled>: h] *)
Definition try_except {A} (c : M A) (handled : exn -> bool) (h : M A) : M A :=
  fun w => match c w with
           | (Raise e, w') => if handled e then h w' else (Raise e, w')
           | r => r
           end.

Definition is_ValueError (e : exn) : bool :=
  match e with ValueError => true | _ => false end.

Definition any_Exception (e : exn) : bool := true.

Definition get_frais_data : M (list frais) := fun w => (Ret (frais_data w), w).
Definition set_frais_data (l : list frais) : M unit :=
  fun w => (Ret tt, mk_world l (user w) (sent w)).
Definition get_user_data : M user_data := fun w => (Ret (user w), w).
Definition set_user_data (u : user_data) : M unit :=
  fun w => (Ret tt, mk_world (frais_data w) u (sent w)).
Definition send (r : reply) : M unit :=
  fun w => (Ret tt, mk_world (frais_data w) (user w) (sent w ++ [r])%list).

(** [context.user_data[key] = v] and [context.user_data.pop(key, None)]
    for the two keys. *)
Definition set_pending_frais (i : info) : M unit :=
  u <- get_user_data ;; set_user_data (mk_user_data (Some i) (pending_category u)).
Definition set_pending_category (c : string) : M unit :=
  u <- get_user_data ;; set_user_data (mk_user_data (pending_frais u) (Some c)).
Definition pop_pending_frais : M unit :=
  u <- get_user_data ;; set_user_data (mk_user_data None (pending_category u)).
Definition pop_pending_category : M unit :=
  u <- get_user_data ;; set_user_data (mk_user_data (pending_frais u) None).

(** [sum(xs)] *)
Definition py_sum (xs : list Q) : Q := fold_left Qplus xs 0%Q.

(** [a / b] *)
Definition py_div (a b : Q) : outcome Q :=
  if Qeq_bool b 0 then Raise ZeroDivisionError else Ret (a / b)%Q.

(** [a > b] *)
Definition Qgtb (a b : Q) : bool := negb (Qle_bool a b).

(** [get_total_mois] *)
Definition get_total_mois (now : datetime) : M Q :=
  fd <- get_frais_data ;;
  let mois_actuel := strftime_mY now in
  ret (py_sum (map frais_montant
                 (filter (fun f => endswith (frais_date f) mois_actuel) fd))).

(** The entry appended by both commit paths. *)
Definition nouveau_frais (now : datetime) (fd : list frais)
  (date : string) (montant : Q) (categorie : string) : frais :=
  mk_frais (Z.of_nat (List.length fd) + 1) date montant categorie now.

(** [ocr] is the result of [extract_text_from_image]. *)
Definition handle_photo (now : datetime) (ocr : option string) : M unit :=
  send PhotoRecue ;;
  try_except
    (match ocr with
     | None | Some EmptyString => send TicketIllisible
     | Some text =>
         i <- lift (parse_ticket_info now text) ;;
         set_pending_frais i ;;
         send (TicketAnalyse
                 (if truthy (info_montant i) then info_montant i else None)
                 (info_date i))
     end)
    any_Exception
    (send ErreurAnalyse).

(** The callback data is [cat_<i>]; [cat_index] is the parsed [i].
    [not pending['montant']] holds for [None] and for [0.0]. *)
Definition handle_category_selection (now : datetime) (cat_index : Z) : M unit :=
  categorie <- lift (py_index CATEGORIES cat_index) ;;
  u <- get_user_data ;;
  match pending_frais u with
  | None => send SessionExpiree
  | Some pending =>
      let demander := set_pending_category categorie ;; send DemandeMontant in
      match info_montant pending with
      | None => demander
      | Some montant =>
          if Qeq_bool montant 0 then demander
          else
            fd <- get_frais_data ;;
            let f := nouveau_frais now fd (info_date pending) montant categorie in
            set_frais_data (fd ++ [f])%list ;;
            total <- get_total_mois now ;;
            send (FraisEnregistre categorie (frais_montant f) (frais_date f) total) ;;
            pop_pending_frais
      end
  end.

(** [pending['date']] on a missing [pending_frais] is a [TypeError], which
    the [except ValueError] does not handle. *)
Definition handle_montant_manuel (now : datetime) (text : string) : M unit :=
  u <- get_user_data ;;
  match pending_category u with
  | None => ret tt
  | Some categorie =>
      try_except
        (montant <- lift (match py_float (replace "," "." text) with
                          | Some v => Ret v
                          | None => Raise ValueError
                          end) ;;
         pending <- lift (match pending_frais u with
                          | Some i => Ret i
                          | None => Raise TypeError
                          end) ;;
         fd <- get_frais_data ;;
         let f := nouveau_frais now fd (info_date pending) montant categorie in
         set_frais_data (fd ++ [f])%list ;;
         total <- get_total_mois now ;;
         send (FraisEnregistre categorie montant (frais_date f) total) ;;
         pop_pending_frais ;;
         pop_pending_category)
        is_ValueError
        (send MontantInvalide)
  end.

(** ** Reports *)

(** A [dict] with string keys, in insertion order. *)
Fixpoint dict_get {V} (d : list (string * V)) (k : string) : option V :=
  match d with
  | [] => None
  | (k', v) :: d' => if String.eqb k' k then Some v else dict_get d' k
  end.

Fixpoint dict_set {V} (d : list (string * V)) (k : string) (v : V) : list (string * V) :=
  match d with
  | [] => [(k, v)]
  | (k', v') :: d' =>
      if String.eqb k' k then (k', v) :: d' else (k', v') :: dict_set d' k v
  end.

(** [sorted(items, key=lambda x: x[1], reverse=True)]: stable, descending. *)
Fixpoint insert_desc (x : string * Q) (l : list (string * Q)) : list (string * Q) :=
  match l with
  | [] => [x]
  | y :: l' => if Qle_bool (snd y) (snd x) then x :: l else y :: insert_desc x l'
  end.

Definition sorted_desc (l : list (string * Q)) : list (string * Q) :=
  fold_right insert_desc [] l.

Definition recap_command (now : datetime) (args : list string) : M unit :=
  let filtre :=
    match args with
    | a :: _ => zfill2 a ++ "/" ++ str_of_N (dt_year now)
    | [] => strftime_mY now
    end in
  fd <- get_frais_data ;;
  let frais_mois := filter (fun f => endswith (frais_date f) filtre) fd in
  match frais_mois with
  | [] => send (AucunFraisPour filtre)
  | _ =>
      let par_categorie :=
        fold_left
          (fun d f =>
             let cat := frais_categorie f in
             match dict_get d cat with
             | None => dict_set d cat [f]
             | Some items => dict_set d cat (items ++ [f])%list
             end)
          frais_mois [] in
      let lignes :=
        map (fun ci => (fst ci, py_sum (map frais_montant (snd ci)), List.length (snd ci)))
          par_categorie in
      send (Recapitulatif filtre lignes (py_sum (map frais_montant frais_mois)))
  end.

(** The dictionary [par_categorie] of [stats_command]. *)
Definition par_categorie (fd : list frais) : list (string * Q) :=
  fold_left
    (fun d f =>
       let cat := frais_categorie f in
       dict_set d cat (match dict_get d cat with
                       | Some v => v
                       | None => 0
                       end + frais_montant f)%Q)
    fd [].

(** The percentage printed on a line of [stats_command]. *)
Definition pourcentage (total_general montant : Q) : outcome Q :=
  if Qgtb total_general 0 then
    match py_div montant total_general with
    | Ret q => Ret (q * 100)%Q
    | Raise e => Raise e
    end
  else Ret 0%Q.

Fixpoint stats_lignes (total_general : Q) (items : list (string * Q))
  : outcome (list (string * Q * Q)) :=
  match items with
  | [] => Ret []
  | (cat, montant) :: rest =>
      match pourcentage total_general montant with
      | Raise e => Raise e
      | Ret p =>
          match stats_lignes total_general rest with
          | Raise e => Raise e
          | Ret l => Ret ((cat, montant, p) :: l)
          end
      end
  end.

Definition stats_command : M unit :=
  fd <- get_frais_data ;;
  match fd with
  | [] => send AucunFraisEnregistre
  | _ =>
      let d := par_categorie fd in
      let total_general := py_sum (map snd d) in
      lignes <- lift (stats_lignes total_general (sorted_desc d)) ;;
      send (Statistiques lignes total_general)
  end.

(** [pd.DataFrame(data)[['date', 'categorie', 'montant']]]: the frame of an
    empty list has no columns, and selecting them is a [KeyError]. *)
Definition dataframe_columns (data : list frais) : outcome (list (string * string * Q)) :=
  match data with
  | [] => Raise KeyError
  | _ => Ret (map (fun f => (frais_date f, frais_categorie f, frais_montant f)) data)
  end.

Definition export_command (now : datetime) (args : list string) : M unit :=
  fd <- get_frais_data ;;
  match fd with
  | [] => send AucunFraisAExporter
  | _ =>
      send GenerationExcel ;;
      let '(data_export, filename) :=
        match args with
        | annee :: _ =>
            (filter (fun f => endswith (frais_date f) annee) fd,
             "frais_pro_" ++ annee ++ ".xlsx")
        | [] =>
            (filter (fun f => endswith (frais_date f) (strftime_mY now)) fd,
             "frais_pro_" ++ pad_left 2 (str_of_N (dt_month now)) ++ "_"
               ++ pad_left 4 (str_of_N (dt_year now)) ++ ".xlsx")
        end in
      df <- lift (dataframe_columns data_export) ;;
      let total := py_sum (map (fun r => snd r) df) in
      send (DocumentExcel filename (df ++ [("", "TOTAL", total)])%list
              (List.length data_export) total)
  end.

(** [frais_data[-20:]] *)
Definition liste_command : M unit :=
  fd <- get_frais_data ;;
  match fd with
  | [] => send AucunFraisListe
  | _ => send (ListeFrais (skipn (List.length fd - 20) fd))
  end.

Definition datetime_eqb (a b : datetime) : bool :=
  (dt_year a =? dt_year b)%N && (dt_month a =? dt_month b)%N
  && (dt_day a =? dt_day b)%N && (dt_clock a =? dt_clock b)%N.

(** [==] on two entries of [frais_data]. *)
Definition frais_eqb (a b : frais) : bool :=
  (frais_id a =? frais_id b)%Z && String.eqb (frais_date a) (frais_date b)
  && Qeq_bool (frais_montant a) (frais_montant b)
  && String.eqb (frais_categorie a) (frais_categorie b)
  && datetime_eqb (frais_timestamp a) (frais_timestamp b).

(** [lst.remove(x)]: drops the first element equal to [x]. *)
Fixpoint py_remove (x : frais) (l : list frais) : outcome (list frais) :=
  match l with
  | [] => Raise ValueError
  | y :: l' =>
      if frais_eqb y x then Ret l'
      else match py_remove x l' with
           | Ret r => Ret (y :: r)
           | Raise e => Raise e
           end
  end.

(** [next((f for f in frais_data if f['id'] == frais_id), None)] *)
Definition find_by_id (frais_id' : Z) (fd : list frais) : option frais :=
  find (fun f => (frais_id f =? frais_id')%Z) fd.

Definition supprimer_command (args : list string) : M unit :=
  match args with
  | [] => send UsageSupprimer
  | a :: _ =>
      try_except
        (frais_id' <- lift (match py_int a with
                            | Some i => Ret i
                            | None => Raise ValueError
                            end) ;;
         fd <- get_frais_data ;;
         match find_by_id frais_id' fd with
         | Some frais_to_remove =>
             fd' <- lift (py_remove frais_to_remove fd) ;;
             set_frais_data fd' ;;
             send (FraisSupprime frais_id')
         | None => send (FraisIntrouvable frais_id')
         end)
        is_ValueError
        (send IdInvalide)
  end.

(** ** The dispatcher of [main] *)

Inductive update :=
| Command (name : string) (args : list string)
| Photo (ocr : option string)
| Text (text : string)
| CallbackQuery (cat_index : Z).

Definition handle (now : datetime) (u : update) : M unit :=
  match u with
  | Command name args =>
      if String.eqb name "start" then send Bienvenue
      else if String.eqb name "help" then send Aide
      else if String.eqb name "recap" then recap_command now args
      else if String.eqb name "stats" then stats_command
      else if String.eqb name "export" then export_command now args
      else if String.eqb name "liste" then liste_command
      else if String.eqb name "supprimer" then supprimer_command args
      else ret tt
  | Photo ocr => handle_photo now ocr
  | Text text => handle_montant_manuel now text
  | CallbackQuery cat_index => handle_category_selection now cat_index
  end.

(** A handler that raises is logged by [error_handler]; the world it left
    behind stays. *)
Definition step (w : world) (e : datetime * update) : world :=
  snd (handle (fst e) (snd e) w).

Definition run (es : list (datetime * update)) (w : world) : world :=
  fold_left step es w.

(** ** The conversation states of the specification, read off [user_data] *)

Inductive conv_state := Idle | AwaitingCategory | AwaitingManualAmount.

(** Idle: no candidate in flight.  AwaitingCategory: a candidate, no category
    chosen.  AwaitingManualAmount: a candidate without a usable amount and a
    chosen category. *)
Definition in_state (st : conv_state) (u : user_data) : Prop :=
  match st with
  | Idle => pending_frais u = None /\ pending_category u = None
  | AwaitingCategory => pending_frais u <> None /\ pending_category u = None
  | AwaitingManualAmount =>
      (exists i, pending_frais u = Some i /\ truthy (info_montant i) = false)
      /\ pending_category u <> None
  end.

(** ** Notions the statements are written with *)

Fixpoint all_in (k : cclass) (s : string) : bool :=
  match s with
  | EmptyString => true
  | String c s' => in_class k c && all_in k s'
  end.

(** [matches r p g]: [r] matches exactly [p] and closes the groups [g]. *)
Fixpoint matches (r : regex) (p : string) (g : list string) : Prop :=
  match r with
  | Lit l => p = l /\ g = []
  | One k => exists c, p = String c "" /\ in_class k c = true /\ g = []
  | Rep n k => String.length p = n /\ all_in k p = true /\ g = []
  | Star k => all_in k p = true /\ g = []
  | Plus k => p <> "" /\ all_in k p = true /\ g = []
  | Group r1 => exists g1, matches r1 p g1 /\ g = (g1 ++ [p])%list
  | Seq r1 r2 =>
      exists p1 p2 g1 g2,
        p = p1 ++ p2 /\ g = (g1 ++ g2)%list /\ matches r1 p1 g1 /\ matches r2 p2 g2
  end.

(** A captured amount: digits, a separator, two digits. *)
Definition montant_shape (g : string) : Prop :=
  exists ds sep d1 d2,
    g = ds ++ String sep (String d1 (String d2 "")) /\
    ds <> "" /\ all_in Digit ds = true /\
    (sep = "."%char \/ sep = ","%char) /\
    is_digit d1 = true /\ is_digit d2 = true.

(** [first_match r text p gs]: [p] is a match of [r] in [text] with groups
    [gs], and [re.match] fails at every position to its left. *)
Definition first_match (r : regex) (text p : string) (gs : list string) : Prop :=
  exists pre post,
    text = pre ++ p ++ post /\ matches r p gs /\
    forall pre1 pre2, pre = pre1 ++ pre2 -> pre2 <> "" ->
      re_match r (pre2 ++ p ++ post) = None.

(** A date as the patterns read it: two digits, a separator, two digits, a
    separator, [n] digits. *)
Definition date_shape (n : nat) (j mo a p : string) : Prop :=
  exists s1 s2,
    p = j ++ String s1 (mo ++ String s2 a) /\
    (s1 = "/"%char \/ s1 = "-"%char) /\ (s2 = "/"%char \/ s2 = "-"%char) /\
    String.length j = 2%nat /\ all_in Digit j = true /\
    String.length mo = 2%nat /\ all_in Digit mo = true /\
    String.length a = n /\ all_in Digit a = true.



(** The characters a match of [(\d+[.,]\d{2})\s*] is made of. *)
Definition montant_chars : cclass := Either Digit (Either (Any_of ["."%char; ","%char]) Space).

Definition maintenant : datetime := mk_datetime 2026 11 4 0.

Definition monde_zero : world :=
  snd (handle_photo maintenant (Some "0,00€") initial_world).

Definition is_supprimer (u : update) : bool :=
  match u with
  | Command name _ => String.eqb name "supprimer"
  | _ => false
  end.

Definition ids (w : world) : list Z := map frais_id (frais_data w).

Definition appended (now : datetime) (fd fd' : list frais) : Prop :=
  exists date montant categorie,
    fd' = (fd ++ [nouveau_frais now fd date montant categorie])%list.

(** Without a deletion the identifiers count up from one. *)
Definition sequential (fd : list frais) : Prop :=
  map frais_id fd = map Z.of_nat (seq 1 (List.length fd)).

(** Two receipts, a deletion, a third receipt. *)
Definition trois_tickets : list (datetime * update) :=
  [ (maintenant, Photo (Some "12,50€ 01/11/2026")); (maintenant, CallbackQuery 3);
    (maintenant, Photo (Some "2,50€ 01/11/2026")); (maintenant, CallbackQuery 0);
    (maintenant, Command "supprimer" ["1"]);
    (maintenant, Photo (Some "7,00€ 01/01/2024")); (maintenant, CallbackQuery 6) ].

(** The value of a key, [0] when absent: [d.get(k, 0)]. *)
Definition dict_val (d : list (string * Q)) (k : string) : Q :=
  match dict_get d k with
  | Some v => v
  | None => 0%Q
  end.

(** The amounts of one category, summed. *)
Definition total_categorie (cat : string) (fd : list frais) : Q :=
  py_sum (map frais_montant (filter (fun f => String.eqb (frais_categorie f) cat) fd)).

(** One pass of the loop that fills [par_categorie]. *)
Definition cumule (d : list (string * Q)) (f : frais) : list (string * Q) :=
  dict_set d (frais_categorie f) (dict_val d (frais_categorie f) + frais_montant f)%Q.

Definition desc (a b : string * Q) : Prop := (snd b <= snd a)%Q.

(** A line of the statistics: category, total, percentage. *)
Definition ligne_cat (l : string * Q * Q) : string := fst (fst l).
Definition ligne_montant (l : string * Q * Q) : Q := snd (fst l).
Definition ligne_pourcentage (l : string * Q * Q) : Q := snd l.

(** The filter of [/recap]. *)
Definition filtre_recap (now : datetime) (args : list string) : string :=
  match args with
  | a :: _ => zfill2 a ++ "/" ++ str_of_N (dt_year now)
  | [] => strftime_mY now
  end.

(** The filter of [/export]. *)
Definition filtre_export (now : datetime) (args : list string) : string :=
  match args with
  | annee :: _ => annee
  | [] => strftime_mY now
  end.

Definition sans_frais (filtre : string) (fd : list frais) : Prop :=
  filter (fun f => endswith (frais_date f) filtre) fd = [].

(** One receipt of January 2024. *)
Definition un_ticket : list (datetime * update) :=
  [ (maintenant, Photo (Some "7,00€ 01/01/2024")); (maintenant, CallbackQuery 6) ].

(** A receipt without an amount, then the category "Autres". *)
Definition ticket_sans_montant : list (datetime * update) :=
  [ (maintenant, Photo (Some "ticket sans montant 05/03/24"));
    (maintenant, CallbackQuery 6) ].

Definition nouvelle_photo : datetime * update :=
  (maintenant, Photo (Some "12,50€ 01/11/2026")).

(** Two receipts, the first one deleted, a third receipt waiting for its
    category. *)
Definition avant_troisieme : list (datetime * update) :=
  [ (maintenant, Photo (Some "12,50€ 01/11/2026")); (maintenant, CallbackQuery 3);
    (maintenant, Photo (Some "2,50€ 01/11/2026")); (maintenant, CallbackQuery 0);
    (maintenant, Command "supprimer" ["1"]);
    (maintenant, Photo (Some "7,00€ 01/01/2024")) ].


(** ** Further notions: the rest of the handlers *)

(** The commands that only report. *)
Definition is_report (name : string) : bool :=
  String.eqb name "start" || String.eqb name "help" || String.eqb name "recap"
  || String.eqb name "stats" || String.eqb name "export" || String.eqb name "liste".

(** The sum [get_total_mois] computes on a store. *)
Definition total_mois (now : datetime) (fd : list frais) : Q :=
  py_sum (map frais_montant
            (filter (fun f => endswith (frais_date f) (strftime_mY now)) fd)).

(** A date [dd/mm/yyyy]: digits around two slashes. *)
Definition date_valide (d : string) : bool :=
  match d with
  | String j1 (String j2 (String s1 (String m1 (String m2 (String s2
      (String a1 (String a2 (String a3 (String a4 EmptyString))))))))) =>
      is_digit j1 && is_digit j2 && Ascii.eqb s1 "/" && is_digit m1 && is_digit m2
      && Ascii.eqb s2 "/" && is_digit a1 && is_digit a2 && is_digit a3 && is_digit a4
  | _ => false
  end.

(** A day, a month and a four-digit year as [datetime.now()] gives them. *)
Definition calendrier (now : datetime) : bool :=
  ((1 <=? dt_day now) && (dt_day now <=? 31) && (1 <=? dt_month now)
   && (dt_month now <=? 12) && (1000 <=? dt_year now) && (dt_year now <=? 9999))%N.

(** An entry with one of the seven categories and a date [dd/mm/yyyy]. *)
Definition frais_valide (f : frais) : Prop :=
  In (frais_categorie f) CATEGORIES /\ date_valide (frais_date f) = true.

(** Every entry is valid, and so is what is pending. *)
Definition bien_forme (w : world) : Prop :=
  Forall frais_valide (frais_data w) /\
  (forall c, pending_category (user w) = Some c -> In c CATEGORIES) /\
  (forall i, pending_frais (user w) = Some i -> date_valide (info_date i) = true).

(** [s.split(sep)] for a one-character separator. *)
Fixpoint str_split (sep : ascii) (s : string) : list string :=
  match s with
  | EmptyString => [EmptyString]
  | String c s' =>
      if Ascii.eqb c sep then EmptyString :: str_split sep s'
      else match str_split sep s' with
           | h :: t => String c h :: t
           | [] => [String c EmptyString]
           end
  end.

(** [f"cat_{i}"], the callback data of the button of category [i]. *)
Definition callback_data (i : nat) : string := "cat_" ++ str_of_N (N.of_nat i).

(** [int(query.data.split('_')[1])] *)
Definition callback_index (data : string) : outcome Z :=
  match nth_error (str_split "_" data) 1 with
  | None => Raise IndexError
  | Some t => match py_int t with
              | Some i => Ret i
              | None => Raise ValueError
              end
  end.

(** [range(0, n, 2)] *)
Definition range_by_two (n : nat) : list nat :=
  map (fun k => 2 * k)%nat (seq 0 ((n + 1) / 2)).

(** The rows of buttons [handle_photo] builds over a list of categories:
    two buttons a row, a label and its callback data each. *)
Definition keyboard (cats : list string) : list (list (string * string)) :=
  map (fun i =>
         (nth i cats "", callback_data i)
         :: (if (i + 1 <? List.length cats)%nat
             then [(nth (i + 1) cats "", callback_data (i + 1))]
             else []))
    (range_by_two (List.length cats)).

(** [handle_category_selection] on the data of the pressed button. *)
Definition handle_callback (now : datetime) (data : string) : M unit :=
  cat_index <- lift (callback_index data) ;;
  handle_category_selection now cat_index.

(** The distinct elements of a list, in the order of their first
    occurrence. *)
Definition premieres (l : list string) : list string :=
  fold_left (fun acc c => if in_dec string_dec c acc then acc else (acc ++ [c])%list) l [].

(** The entries of one category. *)
Definition de_categorie (cat : string) (l : list frais) : list frais :=
  filter (fun f => String.eqb (frais_categorie f) cat) l.

(** The entries a filter keeps. *)
Definition du_filtre (filtre : string) (fd : list frais) : list frais :=
  filter (fun f => endswith (frais_date f) filtre) fd.

(** One pass of the grouping loop of [recap_command]. *)
Definition regroupe (d : list (string * list frais)) (f : frais) : list (string * list frais) :=
  match dict_get d (frais_categorie f) with
  | None => dict_set d (frais_categorie f) [f]
  | Some items => dict_set d (frais_categorie f) (items ++ [f])%list
  end.

(** The month and the year of a date [dd/mm/yyyy]. *)
Definition date_mois (d : string) : string := substring 3 2 d.
Definition date_annee (d : string) : string := substring 6 4 d.

(** ** The texts the embedding reads as Python does *)

(** What the OCR returns, when it returns a text: ASCII characters and euro
    signs. *)
Definition ocr_simple (ocr : option string) : bool :=
  match ocr with
  | Some text => texte_simple text
  | None => true
  end.

(** An update whose text lies in the range of the embedding: command
    arguments and typed messages in ASCII, a typed message that is none of
    the words of [mot_special] once "," is replaced, a receipt in ASCII and
    euro signs. *)
Definition update_simple (u : update) : bool :=
  match u with
  | Command _ args => forallb est_ascii args
  | Photo ocr => ocr_simple ocr
  | Text text => est_ascii text && negb (mot_special (replace "," "." text))
  | CallbackQuery _ => true
  end.

(** * Properties *)

(** ** Strings *)


Lemma append_assoc (a b c : string) : (a ++ b) ++ c = a ++ (b ++ c).
Proof. induction a; simpl; congruence. Qed.

Lemma length_append (a b : string) :
  String.length (a ++ b) = (String.length a + String.length b)%nat.
Proof. induction a; simpl; congruence. Qed.

Lemma substring_prefix (p s : string) : substring 0 (String.length p) (p ++ s) = p.
Proof.
  induction p as [|c p IH]; simpl.
  - destruct s; reflexivity.
  - now rewrite IH.
Qed.

Lemma consumed_append (p s : string) : consumed (p ++ s) s = p.
Proof.
  unfold consumed. rewrite length_append.
  replace (String.length p + String.length s - String.length s)%nat
    with (String.length p) by lia.
  apply substring_prefix.
Qed.

Lemma strip_prefix_append (l s : string) : strip_prefix l (l ++ s) = Some s.
Proof.
  induction l as [|c l IH]; simpl; [reflexivity|].
  now rewrite Ascii.eqb_refl.
Qed.

Lemma strip_prefix_Some (l s s' : string) : strip_prefix l s = Some s' -> s = l ++ s'.
Proof.
  revert s. induction l as [|c l IH]; simpl; intros s H.
  - congruence.
  - destruct s as [|b s]; [discriminate|].
    destruct (Ascii.eqb_spec c b) as [->|]; [|discriminate].
    now rewrite (IH _ H).
Qed.

(** ** The matcher against a declarative reading of the patterns *)

Lemma m_rep_sound k n s s' :
  m_rep k n s = Some s' ->
  exists p, s = p ++ s' /\ String.length p = n /\ all_in k p = true.
Proof.
  revert s. induction n as [|n IH]; simpl; intros s H.
  - exists "". injection H as ->. auto.
  - destruct s as [|c s]; [discriminate|].
    destruct (in_class k c) eqn:E; [|discriminate].
    destruct (IH _ H) as (p & -> & L & A).
    exists (String c p). simpl. rewrite E, L, A. auto.
Qed.

Lemma m_rep_complete k p s : all_in k p = true -> m_rep k (String.length p) (p ++ s) = Some s.
Proof.
  induction p as [|c p IH]; simpl; intros H; [reflexivity|].
  apply andb_prop in H as [-> H]. auto.
Qed.

Lemma m_star_sound {A} k s (f : string -> option A) x :
  m_star k s f = Some x ->
  exists p s', s = p ++ s' /\ all_in k p = true /\ f s' = Some x.
Proof.
  induction s as [|c s IH]; simpl; intros H.
  - exists "", "". auto.
  - destruct (in_class k c) eqn:E.
    + destruct (m_star k s f) as [y|] eqn:Ey.
      * injection H as ->. destruct (IH eq_refl) as (p & s' & -> & Hp & Hf).
        exists (String c p), s'. simpl. rewrite E, Hp. auto.
      * exists "", (String c s). auto.
    + exists "", (String c s). auto.
Qed.

Lemma m_star_complete {A} k p s (f : string -> option A) :
  all_in k p = true -> f s <> None -> m_star k (p ++ s) f <> None.
Proof.
  intros Hp Hf. induction p as [|c p IH]; simpl in *.
  - destruct s as [|c s]; simpl; [assumption|].
    destruct (in_class k c); [|assumption].
    destruct (m_star k s f); [discriminate|assumption].
  - apply andb_prop in Hp as [-> Hp].
    destruct (m_star k (p ++ s) f) eqn:E; [discriminate|].
    now elim (IH Hp).
Qed.

Lemma m_sound r : forall s gs f x,
  m r s gs f = Some x ->
  exists p g s', s = p ++ s' /\ matches r p g /\ f s' (gs ++ g)%list = Some x.
Proof.
  induction r as [l|k|n k|k|k|r IH|r1 IH1 r2 IH2]; simpl; intros s gs f x H.
  - destruct (strip_prefix l s) as [s'|] eqn:E; [|discriminate].
    apply strip_prefix_Some in E. exists l, [], s'. now rewrite app_nil_r.
  - destruct s as [|c s]; [discriminate|].
    destruct (in_class k c) eqn:E; [|discriminate].
    exists (String c ""), [], s. rewrite app_nil_r. simpl. eauto 6.
  - destruct (m_rep k n s) as [s'|] eqn:E; [|discriminate].
    destruct (m_rep_sound _ _ _ _ E) as (p & -> & L & A).
    exists p, [], s'. now rewrite app_nil_r.
  - destruct (m_star_sound _ _ _ _ H) as (p & s' & -> & Hp & Hf).
    exists p, [], s'. now rewrite app_nil_r.
  - destruct s as [|c s]; [discriminate|].
    destruct (in_class k c) eqn:E; [|discriminate].
    destruct (m_star_sound _ _ _ _ H) as (p & s' & -> & Hp & Hf).
    exists (String c p), [], s'. rewrite app_nil_r. simpl. rewrite E, Hp.
    repeat split; auto. discriminate.
  - destruct (IH _ _ _ _ H) as (p & g & s' & -> & Hm & Hf).
    rewrite consumed_append, <- app_assoc in Hf.
    exists p, (g ++ [p])%list, s'. eauto.
  - destruct (IH1 _ _ _ _ H) as (p1 & g1 & s1 & -> & Hm1 & Hf1).
    destruct (IH2 _ _ _ _ Hf1) as (p2 & g2 & s2 & -> & Hm2 & Hf2).
    exists (p1 ++ p2), (g1 ++ g2)%list, s2.
    rewrite append_assoc, app_assoc. split; [reflexivity|]. split; [|assumption].
    exists p1, p2, g1, g2. auto.
Qed.

Lemma m_complete r : forall p g s gs f,
  matches r p g -> f s (gs ++ g)%list <> None -> m r (p ++ s) gs f <> None.
Proof.
  induction r as [l|k|n k|k|k|r IH|r1 IH1 r2 IH2]; simpl; intros p g s gs f Hm Hf.
  - destruct Hm as [-> ->]. rewrite strip_prefix_append. now rewrite app_nil_r in Hf.
  - destruct Hm as (c & -> & E & ->). simpl. rewrite E. now rewrite app_nil_r in Hf.
  - destruct Hm as (<- & A & ->). rewrite m_rep_complete by assumption.
    now rewrite app_nil_r in Hf.
  - destruct Hm as (A & ->). rewrite app_nil_r in Hf.
    now apply (m_star_complete k p s (fun s' => f s' gs)).
  - destruct Hm as (N & A & ->). rewrite app_nil_r in Hf.
    destruct p as [|c p]; [congruence|]. simpl in *.
    apply andb_prop in A as [-> A].
    now apply (m_star_complete k p s (fun s' => f s' gs)).
  - destruct Hm as (g1 & Hm & ->).
    apply (IH p g1 s gs); [assumption|].
    now rewrite consumed_append, <- app_assoc.
  - destruct Hm as (p1 & p2 & g1 & g2 & -> & -> & Hm1 & Hm2).
    rewrite append_assoc. apply (IH1 p1 g1 (p2 ++ s) gs); [assumption|].
    apply (IH2 p2 g2 s); [assumption|]. now rewrite <- app_assoc.
Qed.

(** [re_match] finds a match exactly when one exists at the start. *)
Lemma re_match_sound r s gs :
  re_match r s = Some gs -> exists p s', s = p ++ s' /\ matches r p gs.
Proof.
  unfold re_match. intros H.
  destruct (m_sound _ _ _ _ _ H) as (p & g & s' & -> & Hm & Hf).
  simpl in Hf. injection Hf as <-. eauto.
Qed.

Lemma re_match_complete r p g s :
  matches r p g -> re_match r (p ++ s) <> None.
Proof.
  intros Hm. unfold re_match. apply (m_complete r p g); [assumption|discriminate].
Qed.

Lemma re_search_sound r s gs :
  re_search r s = Some gs ->
  exists pre p post, s = pre ++ p ++ post /\ matches r p gs.
Proof.
  induction s as [|c s IH]; simpl; intros H.
  - destruct (re_match r "") eqn:E; [|discriminate]. injection H as ->.
    destruct (re_match_sound _ _ _ E) as (p & s' & -> & Hm). exists "", p, s'. auto.
  - destruct (re_match r (String c s)) eqn:E.
    + injection H as ->.
      destruct (re_match_sound _ _ _ E) as (p & s' & Hs & Hm). exists "", p, s'. auto.
    + destruct (IH H) as (pre & p & post & -> & Hm).
      exists (String c pre), p, post. auto.
Qed.

Lemma re_search_complete r pre p post g :
  matches r p g -> re_search r (pre ++ p ++ post) <> None.
Proof.
  intros Hm. induction pre as [|c pre IH]; simpl.
  - pose proof (re_match_complete r p g post Hm) as H.
    destruct (p ++ post); simpl; destruct (re_match r _); congruence.
  - destruct (re_match r _); [discriminate|assumption].
Qed.

(** ** Characters *)

Ltac ascii_cases c := destruct c as [[] [] [] [] [] [] [] []]; try discriminate; try reflexivity.

Lemma digit_not_space c : is_digit c = true -> is_space c = false.
Proof. ascii_cases c. Qed.

Lemma digit_not_blank c : is_digit c = true -> is_blank c = false.
Proof. ascii_cases c. Qed.

Lemma digit_not_underscore c : is_digit c = true -> Ascii.eqb c "_" = false.
Proof. ascii_cases c. Qed.

Lemma digit_not_comma c : is_digit c = true -> Ascii.eqb c "," = false.
Proof. ascii_cases c. Qed.

Lemma digit_split_sign c s : is_digit c = true -> split_sign (String c s) = (false, String c s).
Proof. ascii_cases c. Qed.


Lemma replace_digits ds : all_in Digit ds = true -> replace "," "." ds = ds.
Proof.
  induction ds as [|c ds IH]; simpl; intros H; [reflexivity|].
  apply andb_prop in H as [Hc H]. now rewrite (digit_not_comma _ Hc), IH.
Qed.

Lemma replace_append a b s t : replace a b (s ++ t) = replace a b s ++ replace a b t.
Proof. induction s; simpl; congruence. Qed.

Lemma span_digits_cons c s :
  is_digit c = true ->
  match s with
  | String u _ => Ascii.eqb u "_" = false
  | EmptyString => True
  end ->
  span_digits (String c s) = (String c (fst (span_digits s)), snd (span_digits s)).
Proof.
  intros Hc Hu. cbn [span_digits]. rewrite Hc.
  destruct s as [|u t]; [reflexivity|]. rewrite Hu.
  now destruct (span_digits (String u t)).
Qed.

Lemma span_digits_all ds : all_in Digit ds = true -> span_digits ds = (ds, "").
Proof.
  induction ds as [|c ds IH]; intros H; [reflexivity|].
  simpl in H. apply andb_prop in H as [Hc H].
  rewrite span_digits_cons, (IH H); [reflexivity|assumption|].
  destruct ds as [|u t]; [exact I|]. simpl in H.
  apply andb_prop in H as [Hu _]. now apply digit_not_underscore.
Qed.

Lemma span_digits_stop ds c rest :
  all_in Digit ds = true -> is_digit c = false -> Ascii.eqb c "_" = false ->
  span_digits (ds ++ String c rest) = (ds, String c rest).
Proof.
  intros H Hc Hu. induction ds as [|d ds IH].
  - simpl. now rewrite Hc.
  - simpl in H. apply andb_prop in H as [Hd H].
    change (String d ds ++ String c rest) with (String d (ds ++ String c rest)).
    rewrite span_digits_cons, (IH H); [reflexivity|assumption|].
    destruct ds as [|u t]; [exact Hu|]. simpl in H |- *.
    apply andb_prop in H as [H' _]. now apply digit_not_underscore.
Qed.

(** ** Shapes of what the groups capture *)

Lemma any_of_2 a b c : in_class (Any_of [a; b]) c = true -> c = a \/ c = b.
Proof.
  simpl. rewrite orb_false_r. intros H. apply orb_prop in H as [H|H];
    apply Ascii.eqb_eq in H; auto.
Qed.

Lemma length_2 (p : string) : String.length p = 2%nat -> exists a b, p = String a (String b "").
Proof. destruct p as [|a [|b [|c p]]]; try discriminate. eauto. Qed.

Lemma matches_montant_group p g :
  matches montant_group p g -> g = [p] /\ montant_shape p.
Proof.
  simpl. intros (g1 & (p1 & p2 & g2 & g3 & -> & -> & (N & D & ->) & M) & ->).
  destruct M as (p3 & p4 & g4 & g5 & -> & -> & (c & -> & C & ->) & (L & D2 & ->)).
  split; [reflexivity|].
  destruct (length_2 _ L) as (d1 & d2 & ->). simpl in D2.
  apply andb_prop in D2 as [D1 D2]. rewrite andb_true_r in D2.
  exists p1, c, d1, d2. repeat split; auto.
  apply any_of_2 in C. tauto.
Qed.

(** [float] never rejects a captured amount. *)
Lemma py_float_montant g : montant_shape g -> exists v, py_float (replace "," "." g) = Some v.
Proof.
  intros (ds & sep & d1 & d2 & -> & N & D & S & D1 & D2).
  rewrite replace_append, (replace_digits _ D). simpl replace.
  replace (if Ascii.eqb sep "," then "."%char else sep) with "."%char
    by (destruct S as [-> | ->]; reflexivity).
  rewrite (digit_not_comma _ D1), (digit_not_comma _ D2).
  destruct ds as [|c ds]; [congruence|]. simpl in D.
  apply andb_prop in D as [Dc D].
  unfold py_float. cbn [lstrip append]. rewrite (digit_not_blank _ Dc).
  rewrite (digit_split_sign _ _ Dc).
  change (String c (ds ++ String "." (String d1 (String d2 ""))))
    with (String c ds ++ String "." (String d1 (String d2 ""))).
  rewrite span_digits_stop; [|simpl; now rewrite Dc, D|reflexivity|reflexivity].
  rewrite (span_digits_all (String d1 (String d2 "")))
    by (simpl; now rewrite D1, D2). cbn [append].
  change (float_exponent "") with (Some 0%Z). eauto.
Qed.

Lemma re_search_first_match r text gs :
  re_search r text = Some gs -> exists p, first_match r text p gs.
Proof.
  induction text as [|c s IH]; simpl; intros H.
  - destruct (re_match r "") eqn:E; [|discriminate]. injection H as ->.
    destruct (re_match_sound _ _ _ E) as (p & s' & Hs & Hm).
    exists p, "", s'. repeat split; auto.
    intros [|] pre2 Hp; [|discriminate]. simpl in Hp. congruence.
  - destruct (re_match r (String c s)) eqn:E.
    + injection H as ->.
      destruct (re_match_sound _ _ _ E) as (p & s' & Hs & Hm).
      exists p, "", s'. repeat split; auto.
      intros [|] pre2 Hp; [|discriminate]. simpl in Hp. congruence.
    + destruct (IH H) as (p & pre & post & -> & Hm & Hl).
      exists p, (String c pre), post. repeat split; auto.
      intros [|c1 pre1] pre2 Hp N; simpl in Hp.
      * subst pre2. exact E.
      * injection Hp as -> ->. now apply (Hl pre1).
Qed.

Lemma re_search_None r pre p post g :
  re_search r (pre ++ p ++ post) = None -> ~ matches r p g.
Proof. intros H Hm. exact (re_search_complete r pre p post g Hm H). Qed.


(** ** The groups of the bot's patterns *)

Lemma matches_date_pattern n p gs :
  matches (date_pattern n) p gs ->
  exists j mo a, gs = [j; mo; a] /\ date_shape n j mo a p.
Proof.
  simpl.
  intros (p1 & q1 & g1 & h1 & -> & -> & (g1' & (L1 & D1 & ->) & ->) & H).
  destruct H as (p2 & q2 & g2 & h2 & -> & -> & (s1 & -> & C1 & ->) & H).
  destruct H as (p3 & q3 & g3 & h3 & -> & -> & (g3' & (L3 & D3 & ->) & ->) & H).
  destruct H as (p4 & q4 & g4 & h4 & -> & -> & (s2 & -> & C2 & ->) & H).
  destruct H as (g5 & (L5 & D5 & ->) & ->).
  exists p1, p3, q4. split; [reflexivity|].
  exists s1, s2. apply any_of_2 in C1, C2. repeat split; auto.
Qed.

Lemma matches_montant_patterns pat p gs :
  In pat montant_patterns -> matches pat p gs -> exists g, gs = [g] /\ montant_shape g.
Proof.
  intros [<-|[<-|[<-|[<-|[]]]]]; cbn [matches pattern_montant_euro pattern_euro_montant
    pattern_total pattern_montant_eur].
  - intros (p1 & p2 & g1 & g2 & _ & -> & Hg & (p3 & p4 & g3 & g4 & _ & -> & (_ & ->) & (_ & ->))).
    apply matches_montant_group in Hg as [-> Hs]. simpl. eauto.
  - intros (p1 & p2 & g1 & g2 & _ & -> & (_ & ->) & (p3 & p4 & g3 & g4 & _ & -> & (_ & ->) & Hg)).
    apply matches_montant_group in Hg as [-> Hs]. simpl. eauto.
  - intros (p1 & p2 & g1 & g2 & _ & -> & (_ & ->) & (p3 & p4 & g3 & g4 & _ & -> & (_ & _ & ->) & Hg)).
    apply matches_montant_group in Hg as [-> Hs]. simpl. eauto.
  - intros (p1 & p2 & g1 & g2 & _ & -> & Hg & (p3 & p4 & g3 & g4 & _ & -> & (_ & ->) & (_ & ->))).
    apply matches_montant_group in Hg as [-> Hs]. simpl. eauto.
Qed.

(** The amount loop never raises and returns the amount of the first
    pattern, in list order, that is found in the text. *)
Lemma search_montant_spec pats t :
  (forall pat, In pat pats -> In pat montant_patterns) ->
  (exists pat gs g v before after,
      pats = (before ++ pat :: after)%list /\
      (forall pat', In pat' before -> re_search pat' t = None) /\
      re_search pat t = Some gs /\ gs = [g] /\ montant_shape g /\
      py_float (replace "," "." g) = Some v /\
      search_montant pats t = Ret (Some v))
  \/ ((forall pat, In pat pats -> re_search pat t = None) /\
      search_montant pats t = Ret None).
Proof.
  induction pats as [|pat pats IH]; intros Hin.
  - right. split; [intros _ []|reflexivity].
  - cbn [search_montant]. destruct (re_search pat t) as [gs|] eqn:E.
    + left. destruct (re_search_sound _ _ _ E) as (pre & p & post & _ & Hm).
      destruct (matches_montant_patterns pat p gs (Hin _ (or_introl eq_refl)) Hm)
        as (g & -> & Hs).
      destruct (py_float_montant _ Hs) as (v & Hv).
      exists pat, [g], g, v, [], pats. cbn [nth_error]. rewrite Hv.
      repeat split; auto. intros _ [].
    + destruct IH as [(pat' & gs & g & v & before & after & -> & Hb & Hs & Hg & Hsh & Hv & Hr)|[Hn Hr]].
      * intros q Hq. apply Hin. now right.
      * left. exists pat', gs, g, v, (pat :: before), after.
        repeat split; auto. intros q [<-|Hq]; auto.
      * right. split; [|assumption]. intros q [<-|Hq]; auto.
Qed.

Lemma search_montant_total t : exists r, search_montant montant_patterns t = Ret r.
Proof.
  destruct (search_montant_spec montant_patterns t (fun _ H => H))
    as [(pat & gs & g & v & before & after & _ & _ & _ & _ & _ & _ & Hr)|[_ Hr]]; eauto.
Qed.


(** [parse_ticket_info] returns normally, with the date of [search_date] or
    today's. *)
Lemma parse_ticket_info_Ret now text :
  exists montant,
    search_montant montant_patterns (lower text) = Ret montant /\
    parse_ticket_info now text =
      Ret (mk_info montant
             (match search_date date_patterns text with
              | Some (String c d) => String c d
              | _ => strftime_dmY now
              end) text).
Proof.
  destruct (search_montant_total (lower text)) as (r & Hr).
  exists r. split; [assumption|]. unfold parse_ticket_info. now rewrite Hr.
Qed.

Lemma date_shape_groups n p gs :
  re_search (date_pattern n) p = Some gs ->
  exists j mo a q, gs = [j; mo; a] /\ first_match (date_pattern n) p q gs /\ date_shape n j mo a q.
Proof.
  intros H. destruct (re_search_first_match _ _ _ H) as (q & Hq).
  pose proof Hq as (pre & post & _ & Hm & _).
  destruct (matches_date_pattern _ _ _ Hm) as (j & mo & a & -> & Hs).
  exists j, mo, a, q. auto.
Qed.

Lemma date_shape_jour n j mo a q :
  date_shape n j mo a q -> String.length a = n /\ exists c d, j = String c d.
Proof.
  intros (s1 & s2 & _ & _ & _ & Lj & _ & _ & _ & La & _). split; [assumption|].
  destruct j; [discriminate|eauto].
Qed.

(** The date loop on the bot's two patterns. *)
Lemma search_date_year4 text gs :
  re_search (date_pattern 4) text = Some gs ->
  exists j mo a q,
    gs = [j; mo; a] /\ first_match (date_pattern 4) text q gs /\ date_shape 4 j mo a q /\
    search_date date_patterns text = Some (j ++ "/" ++ mo ++ "/" ++ a).
Proof.
  intros H. destruct (date_shape_groups _ _ _ H) as (j & mo & a & q & -> & Hf & Hs).
  exists j, mo, a, q. repeat split; auto.
  cbn [search_date date_patterns]. rewrite H.
  destruct (date_shape_jour _ _ _ _ _ Hs) as [-> _]. reflexivity.
Qed.

Lemma search_date_year2 text gs :
  re_search (date_pattern 4) text = None ->
  re_search (date_pattern 2) text = Some gs ->
  exists j mo a q,
    gs = [j; mo; a] /\ first_match (date_pattern 2) text q gs /\ date_shape 2 j mo a q /\
    search_date date_patterns text = Some (j ++ "/" ++ mo ++ "/" ++ "20" ++ a).
Proof.
  intros H4 H. destruct (date_shape_groups _ _ _ H) as (j & mo & a & q & -> & Hf & Hs).
  exists j, mo, a, q. repeat split; auto.
  cbn [search_date date_patterns]. rewrite H4, H.
  destruct (date_shape_jour _ _ _ _ _ Hs) as [-> _]. reflexivity.
Qed.

Lemma search_date_none text :
  (forall pat, In pat date_patterns -> re_search pat text = None) ->
  search_date date_patterns text = None.
Proof.
  intros H. cbn [search_date date_patterns].
  rewrite (H (date_pattern 4)), (H (date_pattern 2)); simpl; auto.
Qed.

Lemma search_date_cases text :
  search_date date_patterns text = None \/
  (exists j mo a q,
     date_shape 4 j mo a q /\
     search_date date_patterns text = Some (j ++ "/" ++ mo ++ "/" ++ a)) \/
  (exists j mo a q,
     date_shape 2 j mo a q /\
     search_date date_patterns text = Some (j ++ "/" ++ mo ++ "/" ++ "20" ++ a)).
Proof.
  destruct (re_search (date_pattern 4) text) as [gs|] eqn:E4.
  - right. left. destruct (search_date_year4 _ _ E4) as (j & mo & a & q & _ & _ & Hs & H).
    exists j, mo, a, q. auto.
  - destruct (re_search (date_pattern 2) text) as [gs|] eqn:E2.
    + right. right.
      destruct (search_date_year2 _ _ E4 E2) as (j & mo & a & q & _ & _ & Hs & H).
      exists j, mo, a, q. auto.
    + left. apply search_date_none. intros pat [<-|[<-|[]]]; assumption.
Qed.





(** ** More on strings *)




Lemma all_in_append k a b : all_in k (a ++ b) = all_in k a && all_in k b.
Proof. induction a as [|c a IH]; simpl; [reflexivity|]. now rewrite IH, andb_assoc. Qed.









(** ** The first pattern on a text that carries "3,00€" *)




Lemma montant_chars_not_euro c : in_class montant_chars c = true -> Ascii.eqb "226" c = false.
Proof. ascii_cases c. Qed.












Ltac run_handler :=
  unfold bind, ret, lift, send, get_frais_data, set_frais_data, get_user_data,
    set_user_data, set_pending_frais, set_pending_category, pop_pending_frais,
    pop_pending_category, get_total_mois, try_except; cbn.

(** Claim C10.  "0,00€" parses to the amount 0.  A candidate whose amount
    is zero is handled by the category selection as one without amount:
    nothing is committed, the category is stored and the user is asked for
    the amount, which leaves the conversation in AwaitingManualAmount. *)
Theorem C10_zero_amount_asks_for_amount
  (now : datetime) (w : world) (pending : info) (q : Q) (cat_index : Z) (categorie : string) :
  pending_frais (user w) = Some pending ->
  info_montant pending = Some q ->
  (q == 0)%Q ->
  py_index CATEGORIES cat_index = Ret categorie ->
  parse_ticket_info now "0,00€" = Ret (mk_info (Some 0%Q) (strftime_dmY now) "0,00€") /\
  handle_category_selection now cat_index w =
    (Ret tt,
     mk_world (frais_data w)
       (mk_user_data (Some pending) (Some categorie))
       (sent w ++ [DemandeMontant])%list) /\
  in_state AwaitingManualAmount (user (snd (handle_category_selection now cat_index w))).
Proof.
  intros Hp Hm Hq Hc. split; [reflexivity|].
  assert (E : handle_category_selection now cat_index w =
    (Ret tt,
     mk_world (frais_data w)
       (mk_user_data (Some pending) (Some categorie))
       (sent w ++ [DemandeMontant])%list)).
  { unfold handle_category_selection. run_handler. rewrite Hc, Hp, Hm.
    apply Qeq_bool_iff in Hq. rewrite Hq. cbn. now rewrite Hp. }
  split; [exact E|]. rewrite E. cbn. split; [|discriminate].
  exists pending. split; [reflexivity|]. unfold truthy. rewrite Hm.
  apply Qeq_bool_iff in Hq. now rewrite Hq.
Qed.

(** The photo of a receipt that reads "0,00€", then the category "Autres". *)
Lemma C10_witness :
  parse_ticket_info maintenant "0,00€" =
    Ret (mk_info (Some 0%Q) (strftime_dmY maintenant) "0,00€") /\
  handle_category_selection maintenant 6 monde_zero =
    (Ret tt,
     mk_world []
       (mk_user_data (Some (mk_info (Some 0%Q) "04/11/2026" "0,00€")) (Some "Autres"))
       [PhotoRecue; TicketAnalyse None "04/11/2026"; DemandeMontant]) /\
  in_state AwaitingManualAmount
    (user (snd (handle_category_selection maintenant 6 monde_zero))).
Proof.
  apply (C10_zero_amount_asks_for_amount maintenant monde_zero
           (mk_info (Some 0%Q) "04/11/2026" "0,00€") 0%Q 6 "Autres");
    reflexivity.
Defined.



(** ** What each handler does to [frais_data] *)

Lemma handle_photo_frais_data now ocr w :
  frais_data (snd (handle_photo now ocr w)) = frais_data w.
Proof.
  unfold handle_photo. run_handler. destruct ocr as [[|c s]|]; cbn; try reflexivity.
  destruct (parse_ticket_info now (String c s)); reflexivity.
Qed.

Lemma handle_category_selection_frais_data now i w :
  frais_data (snd (handle_category_selection now i w)) = frais_data w \/
  appended now (frais_data w) (frais_data (snd (handle_category_selection now i w))).
Proof.
  unfold handle_category_selection. run_handler.
  destruct (py_index CATEGORIES i) as [categorie|]; cbn; [|now left].
  destruct (pending_frais (user w)) as [p|]; cbn; [|now left].
  destruct (info_montant p) as [q|]; cbn; [|now left].
  destruct (Qeq_bool q 0); cbn; [now left|].
  right. now exists (info_date p), q, categorie.
Qed.

Lemma handle_montant_manuel_frais_data now text w :
  frais_data (snd (handle_montant_manuel now text w)) = frais_data w \/
  appended now (frais_data w) (frais_data (snd (handle_montant_manuel now text w))).
Proof.
  unfold handle_montant_manuel. run_handler.
  destruct (pending_category (user w)) as [categorie|]; cbn; [|now left].
  destruct (py_float (replace "," "." text)) as [q|]; cbn; [|now left].
  destruct (pending_frais (user w)) as [p|]; cbn; [|now left].
  right. now exists (info_date p), q, categorie.
Qed.

Lemma recap_command_frais_data now args w :
  frais_data (snd (recap_command now args w)) = frais_data w.
Proof.
  unfold recap_command. run_handler.
  destruct (filter _ (frais_data w)); reflexivity.
Qed.

Lemma stats_command_frais_data w : frais_data (snd (stats_command w)) = frais_data w.
Proof.
  unfold stats_command. run_handler. destruct (frais_data w) as [|f fd] eqn:E; cbn; auto.
  destruct (stats_lignes _ _); cbn; auto.
Qed.

Lemma export_command_frais_data now args w :
  frais_data (snd (export_command now args w)) = frais_data w.
Proof.
  unfold export_command. run_handler. destruct (frais_data w) as [|f fd] eqn:E; cbn; auto.
  destruct args as [|a args]; cbn; destruct (dataframe_columns _); cbn; auto.
Qed.

Lemma liste_command_frais_data w : frais_data (snd (liste_command w)) = frais_data w.
Proof.
  unfold liste_command. run_handler. destruct (frais_data w) as [|f fd] eqn:E; cbn; auto.
Qed.

Lemma handle_frais_data now u w :
  is_supprimer u = false ->
  frais_data (snd (handle now u w)) = frais_data w \/
  appended now (frais_data w) (frais_data (snd (handle now u w))).
Proof.
  destruct u as [name args|ocr|text|i]; cbn [handle is_supprimer]; intros Hs.
  - left.
    destruct (String.eqb name "start"); [reflexivity|].
    destruct (String.eqb name "help"); [reflexivity|].
    destruct (String.eqb name "recap"); [apply recap_command_frais_data|].
    destruct (String.eqb name "stats"); [apply stats_command_frais_data|].
    destruct (String.eqb name "export"); [apply export_command_frais_data|].
    destruct (String.eqb name "liste"); [apply liste_command_frais_data|].
    rewrite Hs. reflexivity.
  - left. apply handle_photo_frais_data.
  - apply handle_montant_manuel_frais_data.
  - apply handle_category_selection_frais_data.
Qed.

Lemma sequential_appended now fd fd' : sequential fd -> appended now fd fd' -> sequential fd'.
Proof.
  unfold sequential. intros H (date & montant & categorie & ->).
  rewrite length_app, map_app, H. cbn [List.length map nouveau_frais frais_id].
  rewrite seq_app, map_app. cbn. do 3 f_equal. lia.
Qed.

Lemma sequential_NoDup fd : sequential fd -> NoDup (map frais_id fd).
Proof.
  unfold sequential. intros ->. apply Injective_map_NoDup.
  - intros a b. apply Nat2Z.inj.
  - apply seq_NoDup.
Qed.

Lemma run_sequential es : forall w,
  forallb (fun e => negb (is_supprimer (snd e))) es = true ->
  sequential (frais_data w) -> sequential (frais_data (run es w)).
Proof.
  induction es as [|[now u] es IH]; cbn [run fold_left forallb]; intros w H Hw; [assumption|].
  apply andb_prop in H as [Hu H]. apply negb_true_iff in Hu. cbn [snd] in Hu.
  apply IH; [assumption|]. unfold step. cbn [fst snd].
  destruct (handle_frais_data now u w Hu) as [->|Ha]; [assumption|].
  exact (sequential_appended _ _ _ Hw Ha).
Qed.

(** Every update other than [/supprimer] leaves [frais_data] as it is or
    appends one entry whose id is the size of the store plus one; as long as
    nothing is deleted the ids are 1, 2, ..., n in order. *)
Lemma ids_from_store_size (es : list (datetime * update)) :
  (forall now u w,
     is_supprimer u = false ->
     frais_data (step w (now, u)) = frais_data w \/
     exists f,
       frais_data (step w (now, u)) = (frais_data w ++ [f])%list /\
       frais_id f = (Z.of_nat (List.length (frais_data w)) + 1)%Z) /\
  (forallb (fun e => negb (is_supprimer (snd e))) es = true ->
   ids (run es initial_world)
     = map Z.of_nat (seq 1 (List.length (frais_data (run es initial_world)))) /\
   NoDup (ids (run es initial_world))).
Proof.
  split.
  - intros now u w Hu. unfold step. cbn [fst snd].
    destruct (handle_frais_data now u w Hu) as [->|(d & q & c & ->)]; [now left|].
    right. eexists. split; reflexivity.
  - intros H. assert (S : sequential (frais_data (run es initial_world)))
      by (apply run_sequential; [assumption|reflexivity]).
    split; [exact S|now apply sequential_NoDup].
Qed.

(** Claim C1, on two receipts, the deletion of the first and a third
    receipt: the id is the size of the store plus one, so the third receipt
    gets the id 2, which the second receipt still carries, and the ids in
    the store are not pairwise distinct; and a receipt committed after the
    only one was deleted gets the id 1 again, the id created earlier and
    deleted. *)
Theorem C1_ids_collide_after_delete :
  ids (run trois_tickets initial_world) = [2%Z; 2%Z] /\
  ~ NoDup (ids (run trois_tickets initial_world)) /\
  ids (run (firstn 2 trois_tickets) initial_world) = [1%Z] /\
  ids (run (firstn 2 trois_tickets ++ [(maintenant, Command "supprimer" ["1"])])%list
         initial_world) = [] /\
  ids (run (firstn 2 trois_tickets ++ [(maintenant, Command "supprimer" ["1"])]
              ++ firstn 2 trois_tickets)%list initial_world) = [1%Z].
Proof.
  assert (E : ids (run trois_tickets initial_world) = [2%Z; 2%Z]) by reflexivity.
  split; [exact E|]. split; [|repeat split].
  rewrite E. intros H. inversion H as [|? ? Hn _]. apply Hn. now left.
Qed.

(** ** Sums *)

Lemma fold_left_Qplus xs : forall a, (fold_left Qplus xs a == a + py_sum xs)%Q.
Proof.
  unfold py_sum. induction xs as [|x xs IH]; intros a; cbn [fold_left].
  - ring.
  - rewrite (IH (a + x)%Q), (IH (0 + x)%Q). ring.
Qed.

Lemma py_sum_cons x xs : (py_sum (x :: xs) == x + py_sum xs)%Q.
Proof. unfold py_sum at 1. cbn [fold_left]. rewrite fold_left_Qplus. ring. Qed.

Lemma py_sum_app xs ys : (py_sum (xs ++ ys) == py_sum xs + py_sum ys)%Q.
Proof.
  induction xs as [|x xs IH]; cbn [app].
  - unfold py_sum at 2. cbn. ring.
  - rewrite !py_sum_cons, IH. ring.
Qed.

Lemma py_sum_Permutation (A : Type) (f : A -> Q) l l' :
  Permutation l l' -> (py_sum (map f l) == py_sum (map f l'))%Q.
Proof.
  induction 1; cbn [map].
  - reflexivity.
  - rewrite !py_sum_cons, IHPermutation. reflexivity.
  - rewrite !py_sum_cons. ring.
  - now rewrite IHPermutation1.
Qed.

(** ** The dictionary of category totals *)

Lemma dict_get_set {V} (d : list (string * V)) k v k' :
  dict_get (dict_set d k v) k' = if String.eqb k k' then Some v else dict_get d k'.
Proof.
  induction d as [|[k0 v0] d IH]; cbn [dict_set dict_get].
  - reflexivity.
  - destruct (String.eqb_spec k0 k) as [->|N]; cbn [dict_get].
    + destruct (String.eqb_spec k k'); reflexivity.
    + rewrite IH. destruct (String.eqb_spec k0 k') as [->|]; [|reflexivity].
      destruct (String.eqb_spec k k'); congruence.
Qed.

Lemma dict_get_None (d : list (string * Q)) k : dict_get d k = None <-> ~ In k (map fst d).
Proof.
  induction d as [|[k0 v0] d IH]; cbn [dict_get map fst In].
  - tauto.
  - destruct (String.eqb_spec k0 k); [|tauto]. split; [discriminate|]. intros H. elim H. auto.
Qed.

Lemma dict_set_keys (d : list (string * Q)) k v :
  map fst (dict_set d k v) =
    if in_dec string_dec k (map fst d) then map fst d else (map fst d ++ [k])%list.
Proof.
  induction d as [|[k0 v0] d IH]; cbn [dict_set map fst].
  - reflexivity.
  - destruct (String.eqb_spec k0 k) as [->|N]; cbn [map fst].
    + destruct (in_dec string_dec k (k :: map fst d)) as [|n]; [reflexivity|].
      elim n. now left.
    + rewrite IH. destruct (in_dec string_dec k (map fst d)) as [i|n];
        destruct (in_dec string_dec k (k0 :: map fst d)) as [i'|n']; try reflexivity.
      * elim n'. now right.
      * destruct i' as [?|?]; [congruence|contradiction].
Qed.

Lemma dict_set_sum d k x :
  (py_sum (map snd (dict_set d k (dict_val d k + x))) == py_sum (map snd d) + x)%Q.
Proof.
  unfold dict_val. induction d as [|[k0 v0] d IH]; cbn [dict_set dict_get map snd].
  - rewrite py_sum_cons. ring.
  - destruct (String.eqb_spec k0 k) as [->|N]; cbn [map snd].
    + rewrite !py_sum_cons. ring.
    + rewrite !py_sum_cons, IH. ring.
Qed.

Lemma par_categorie_fold fd : par_categorie fd = fold_left cumule fd [].
Proof. reflexivity. Qed.

Lemma total_categorie_cons cat f fd :
  (total_categorie cat (f :: fd) ==
   (if String.eqb (frais_categorie f) cat then frais_montant f else 0) + total_categorie cat fd)%Q.
Proof.
  unfold total_categorie. cbn [filter].
  destruct (String.eqb (frais_categorie f) cat); cbn [map].
  - apply py_sum_cons.
  - ring.
Qed.

Lemma fold_cumule fd : forall d,
  NoDup (map fst d) ->
  NoDup (map fst (fold_left cumule fd d)) /\
  (forall cat, In cat (map fst (fold_left cumule fd d)) <->
               In cat (map fst d) \/ In cat (map frais_categorie fd)) /\
  (forall cat, dict_val (fold_left cumule fd d) cat
               == dict_val d cat + total_categorie cat fd)%Q /\
  (py_sum (map snd (fold_left cumule fd d))
   == py_sum (map snd d) + py_sum (map frais_montant fd))%Q.
Proof.
  induction fd as [|f fd IH]; intros d Hd; cbn [fold_left map].
  - split; [assumption|]. split; [|split].
    + intros cat. cbn [In]. tauto.
    + intros cat. unfold total_categorie, py_sum. cbn. ring.
    + unfold py_sum at 3. cbn. ring.
  - assert (Hd' : NoDup (map fst (cumule d f))).
    { unfold cumule. rewrite dict_set_keys. destruct (in_dec _ _ _) as [|n]; [assumption|].
      apply NoDup_app; [assumption|repeat constructor; intros []|].
      intros a Ha [<-|[]]. contradiction. }
    destruct (IH _ Hd') as (N & K & V & T). split; [exact N|]. split; [|split].
    + intros cat. rewrite K. unfold cumule. rewrite dict_set_keys.
      destruct (in_dec _ _ _) as [i|n].
      * cbn [In]. split; [tauto|]. intros [?|[<-|?]]; auto.
      * rewrite in_app_iff. cbn [In]. tauto.
    + intros cat. rewrite V, total_categorie_cons. unfold cumule, dict_val at 1.
      rewrite dict_get_set.
      destruct (String.eqb_spec (frais_categorie f) cat) as [->|]; [ring|].
      fold (dict_val d cat). ring.
    + rewrite T. unfold cumule. rewrite dict_set_sum, py_sum_cons. ring.
Qed.

Lemma dict_val_In d cat m : NoDup (map fst d) -> In (cat, m) d -> dict_val d cat = m.
Proof.
  unfold dict_val. induction d as [|[k v] d IH]; cbn [map fst In dict_get]; [tauto|].
  intros Hn [[= -> ->]|Hin].
  - now rewrite String.eqb_refl.
  - inversion Hn as [|? ? Hk Hn']; subst.
    destruct (String.eqb_spec k cat) as [->|]; [|auto].
    elim Hk. now apply (in_map fst) in Hin.
Qed.

(** ** The descending sort *)

Lemma insert_desc_Permutation x l : Permutation (insert_desc x l) (x :: l).
Proof.
  induction l as [|y l IH]; cbn [insert_desc]; [reflexivity|].
  destruct (Qle_bool (snd y) (snd x)); [reflexivity|].
  rewrite IH. apply perm_swap.
Qed.

Lemma sorted_desc_Permutation l : Permutation (sorted_desc l) l.
Proof.
  induction l as [|x l IH]; cbn; [reflexivity|].
  fold (sorted_desc l). now rewrite insert_desc_Permutation, IH.
Qed.

Lemma insert_desc_Sorted x l : StronglySorted desc l -> StronglySorted desc (insert_desc x l).
Proof.
  induction 1 as [|y l Hs IH Hy]; cbn [insert_desc].
  - repeat constructor.
  - destruct (Qle_bool (snd y) (snd x)) eqn:E.
    + apply Qle_bool_iff in E. constructor; [now constructor|].
      constructor; [exact E|]. rewrite Forall_forall in *. intros z Hz.
      unfold desc in *. exact (Qle_trans _ _ _ (Hy z Hz) E).
    + constructor; [assumption|].
      assert (Hxy : desc y x).
      { unfold desc. destruct (Qlt_le_dec (snd y) (snd x)) as [L|L]; [|exact L].
        apply Qlt_le_weak, Qle_bool_iff in L. congruence. }
      rewrite Forall_forall in *. intros z Hz.
      apply (Permutation_in _ (insert_desc_Permutation x l)) in Hz as [<-|Hz]; auto.
Qed.

Lemma sorted_desc_Sorted l : StronglySorted desc (sorted_desc l).
Proof.
  induction l as [|x l IH]; cbn; [constructor|]. now apply insert_desc_Sorted.
Qed.

Lemma Qgtb_true a b : Qgtb a b = true <-> (b < a)%Q.
Proof.
  unfold Qgtb. rewrite negb_true_iff. split.
  - intros H. apply Qnot_le_lt. intros L. apply Qle_bool_iff in L. congruence.
  - intros H. destruct (Qle_bool a b) eqn:E; [|reflexivity].
    apply Qle_bool_iff in E. now apply Qle_not_lt in E.
Qed.

Lemma pourcentage_Ret total montant :
  pourcentage total montant =
    Ret (if Qgtb total 0 then (montant / total * 100)%Q else 0%Q).
Proof.
  unfold pourcentage, py_div. destruct (Qgtb total 0) eqn:E; [|reflexivity].
  apply Qgtb_true in E. destruct (Qeq_bool total 0) eqn:Z; [|reflexivity].
  apply Qeq_bool_iff in Z. rewrite Z in E. now apply Qlt_irrefl in E.
Qed.

(** The lines are computed without a division by zero. *)
Lemma stats_lignes_Ret total items :
  stats_lignes total items =
    Ret (map (fun cm => (fst cm, snd cm,
                         if Qgtb total 0 then (snd cm / total * 100)%Q else 0%Q)) items).
Proof.
  induction items as [|[cat montant] items IH]; cbn [stats_lignes map fst snd].
  - reflexivity.
  - now rewrite pourcentage_Ret, IH.
Qed.

Lemma py_sum_pourcentages total (items : list (string * Q)) :
  ~ (total == 0)%Q ->
  (py_sum (map (fun cm => snd cm / total * 100) items)
   == py_sum (map snd items) / total * 100)%Q.
Proof.
  intros N. induction items as [|cm items IH]; cbn [map].
  - unfold py_sum. cbn. field. exact N.
  - rewrite !py_sum_cons, IH. field. exact N.
Qed.

Lemma stats_command_run w :
  frais_data w <> [] ->
  stats_command w =
    (Ret tt,
     mk_world (frais_data w) (user w)
       (sent w ++
          [Statistiques
             (map (fun cm =>
                     (fst cm, snd cm,
                      if Qgtb (py_sum (map snd (par_categorie (frais_data w)))) 0
                      then (snd cm / py_sum (map snd (par_categorie (frais_data w))) * 100)%Q
                      else 0%Q))
                (sorted_desc (par_categorie (frais_data w))))
             (py_sum (map snd (par_categorie (frais_data w))))])%list).
Proof.
  destruct w as [[|f fd] u s]; cbn [frais_data user sent]; [congruence|]. intros _.
  unfold stats_command, bind, get_frais_data, lift, send. cbv beta iota.
  cbn [frais_data user sent]. now rewrite stats_lignes_Ret.
Qed.

(** [stats_command] with exact amounts in place of floats.  It never raises.
    On an empty store it answers that nothing is recorded.  Otherwise its
    lines are the per-category totals, each category once with the sum of
    its amounts, sorted by decreasing total; when the total is not positive
    every percentage is 0 and nothing is divided; when it is positive the
    percentages add up to 100. *)
Lemma stats_command_exact (w : world) :
  (frais_data w = [] ->
   stats_command w =
     (Ret tt, mk_world (frais_data w) (user w) (sent w ++ [AucunFraisEnregistre])%list)) /\
  (frais_data w <> [] ->
   let d := par_categorie (frais_data w) in
   let total_general := py_sum (map snd d) in
   exists lignes,
     stats_command w =
       (Ret tt,
        mk_world (frais_data w) (user w)
          (sent w ++ [Statistiques lignes total_general])%list) /\
     (total_general == py_sum (map frais_montant (frais_data w)))%Q /\
     NoDup (map fst d) /\
     (forall cat, In cat (map fst d) <-> In cat (map frais_categorie (frais_data w))) /\
     (forall cat m, In (cat, m) d -> (m == total_categorie cat (frais_data w))%Q) /\
     map (fun l => (ligne_cat l, ligne_montant l)) lignes = sorted_desc d /\
     Permutation (sorted_desc d) d /\
     StronglySorted (fun a b => (ligne_montant b <= ligne_montant a)%Q) lignes /\
     (~ (0 < total_general)%Q ->
      forall l, In l lignes -> ligne_pourcentage l = 0%Q) /\
     ((0 < total_general)%Q ->
      (forall l, In l lignes ->
         ligne_pourcentage l = (ligne_montant l / total_general * 100)%Q) /\
      (py_sum (map ligne_pourcentage lignes) == 100)%Q)).
Proof.
  split.
  - intros E. destruct w as [fd u s]. cbn in E. subst fd. reflexivity.
  - intros N d total_general.
    set (pct := fun cm : string * Q =>
                  (fst cm, snd cm,
                   if Qgtb total_general 0 then (snd cm / total_general * 100)%Q else 0%Q)).
    exists (map pct (sorted_desc d)).
    destruct (fold_cumule (frais_data w) [] (NoDup_nil _)) as (Hn & Hk & Hv & Ht).
    rewrite <- par_categorie_fold in Hn, Hk, Hv, Ht. fold d in Hn, Hk, Hv, Ht.
    split; [|split; [|split; [|split; [|split; [|split; [|split; [|split; [|split]]]]]]]].
    + now rewrite (stats_command_run w N).
    + unfold total_general. rewrite Ht. change (py_sum (map snd [])) with 0%Q. ring.
    + exact Hn.
    + intros cat. rewrite Hk. cbn [map In]. tauto.
    + intros cat m Hin. rewrite <- (dict_val_In d cat m Hn Hin), Hv.
      change (dict_val [] cat) with 0%Q. ring.
    + rewrite map_map. cbn. rewrite <- (map_id (sorted_desc d)) at 2.
      apply map_ext. now intros [c m].
    + apply sorted_desc_Permutation.
    + pose proof (sorted_desc_Sorted d) as S.
      induction S as [|a l S IH Ha]; cbn [map]; constructor; [assumption|].
      rewrite Forall_map. exact Ha.
    + intros Hneg l Hl. apply in_map_iff in Hl as (cm & <- & _).
      unfold pct, ligne_pourcentage. cbn [snd].
      destruct (Qgtb total_general 0) eqn:E; [|reflexivity].
      apply Qgtb_true in E. contradiction.
    + intros Hpos. pose proof Hpos as E. apply Qgtb_true in E.
      assert (Hnz : ~ (total_general == 0)%Q).
      { intros Z. rewrite Z in Hpos. now apply Qlt_irrefl in Hpos. }
      split.
      * intros l Hl. apply in_map_iff in Hl as (cm & <- & _).
        unfold pct, ligne_pourcentage, ligne_montant. cbn [fst snd]. now rewrite E.
      * rewrite map_map. unfold pct, ligne_pourcentage. cbn [snd]. rewrite E.
        rewrite py_sum_pourcentages by assumption.
        rewrite (py_sum_Permutation _ snd _ _ (sorted_desc_Permutation d)).
        fold total_general. field. exact Hnz.
Qed.

(** ** Requests that match nothing *)

Lemma recap_command_no_match now args w :
  sans_frais (filtre_recap now args) (frais_data w) ->
  recap_command now args w =
    (Ret tt,
     mk_world (frais_data w) (user w)
       (sent w ++ [AucunFraisPour (filtre_recap now args)])%list).
Proof.
  unfold sans_frais, recap_command, bind, get_frais_data. cbv beta iota.
  fold (filtre_recap now args). destruct w as [fd u s]. cbn [frais_data user sent].
  now intros ->.
Qed.

Lemma export_command_empty_store now args w :
  frais_data w = [] ->
  export_command now args w =
    (Ret tt, mk_world (frais_data w) (user w) (sent w ++ [AucunFraisAExporter])%list).
Proof.
  destruct w as [fd u s]. cbn [frais_data user sent]. now intros ->.
Qed.

(** On a store that is not empty, a filter that matches nothing reaches the
    column selection of an empty frame. *)
Lemma export_command_no_match now args w :
  frais_data w <> [] ->
  sans_frais (filtre_export now args) (frais_data w) ->
  export_command now args w =
    (Raise KeyError,
     mk_world (frais_data w) (user w) (sent w ++ [GenerationExcel])%list).
Proof.
  unfold sans_frais, export_command, bind, get_frais_data. cbv beta iota.
  destruct w as [[|f fd] u s]; cbn [frais_data user sent]; [congruence|]. intros _.
  destruct args as [|annee rest]; cbn [filtre_export]; intros ->; reflexivity.
Qed.

(** Claim C2, on the store that holds one receipt of 2024: [/export 2025]
    sends the progress message and raises [KeyError], where [/recap 3] on
    the same store answers that nothing is recorded for "03/2026". *)
Theorem C2_export_no_match_raises :
  frais_data (run un_ticket initial_world) =
    [mk_frais 1 "01/01/2024" 7%Q "Autres" maintenant] /\
  sans_frais "2025" (frais_data (run un_ticket initial_world)) /\
  export_command maintenant ["2025"] (run un_ticket initial_world) =
    (Raise KeyError,
     mk_world (frais_data (run un_ticket initial_world))
       (user (run un_ticket initial_world))
       (sent (run un_ticket initial_world) ++ [GenerationExcel])%list) /\
  recap_command maintenant ["3"] (run un_ticket initial_world) =
    (Ret tt,
     mk_world (frais_data (run un_ticket initial_world))
       (user (run un_ticket initial_world))
       (sent (run un_ticket initial_world) ++ [AucunFraisPour "03/2026"])%list).
Proof.
  split; [reflexivity|]. split; [reflexivity|]. split.
  - apply (export_command_no_match maintenant ["2025"]); [discriminate|reflexivity].
  - apply (recap_command_no_match maintenant ["3"]). reflexivity.
Qed.

(** ** A photo in the middle of a manual entry *)

Lemma handle_photo_user now c s w :
  exists i,
    parse_ticket_info now (String c s) = Ret i /\
    handle_photo now (Some (String c s)) w =
      (Ret tt,
       mk_world (frais_data w)
         (mk_user_data (Some i) (pending_category (user w)))
         (sent w ++ [PhotoRecue;
                     TicketAnalyse (if truthy (info_montant i) then info_montant i else None)
                       (info_date i)])%list).
Proof.
  destruct (parse_ticket_info_Ret now (String c s)) as (r & _ & Hi).
  eexists. split; [exact Hi|].
  unfold handle_photo. run_handler. rewrite Hi. cbn. now rewrite <- app_assoc.
Qed.

(** A photo replaces the candidate and leaves the chosen category where it
    is. *)
Lemma handle_photo_states now c s w :
  frais_data (snd (handle_photo now (Some (String c s)) w)) = frais_data w /\
  pending_frais (user (snd (handle_photo now (Some (String c s)) w))) <> None /\
  pending_category (user (snd (handle_photo now (Some (String c s)) w)))
    = pending_category (user w) /\
  (in_state Idle (user w) \/ in_state AwaitingCategory (user w) ->
   in_state AwaitingCategory (user (snd (handle_photo now (Some (String c s)) w)))) /\
  (in_state AwaitingManualAmount (user w) ->
   ~ in_state AwaitingCategory (user (snd (handle_photo now (Some (String c s)) w)))).
Proof.
  destruct (handle_photo_user now c s w) as (i & _ & ->). cbn.
  split; [reflexivity|]. split; [discriminate|]. split; [reflexivity|]. split.
  - intros [[_ H]|[_ H]]; (split; [discriminate|exact H]).
  - intros [_ H] [_ H']. contradiction.
Qed.

(** Claim C4, on a conversation that waits for a manual amount with the
    category "Autres": after a new photo the category is still stored, the
    conversation is not in AwaitingCategory, and the text "5" commits the new
    receipt under "Autres" with the amount 5. *)
Theorem C4_photo_keeps_pending_category :
  in_state AwaitingManualAmount (user (run ticket_sans_montant initial_world)) /\
  user (step (run ticket_sans_montant initial_world) nouvelle_photo) =
    mk_user_data (Some (mk_info (Some (25 # 2)%Q) "01/11/2026" "12,50€ 01/11/2026"))
      (Some "Autres") /\
  ~ in_state AwaitingCategory
      (user (step (run ticket_sans_montant initial_world) nouvelle_photo)) /\
  frais_data
    (step (step (run ticket_sans_montant initial_world) nouvelle_photo)
       (maintenant, Text "5")) =
    [mk_frais 1 "01/11/2026" 5%Q "Autres" maintenant].
Proof.
  split; [|split; [reflexivity|split; [|reflexivity]]].
  - split; [|discriminate]. eexists. split; reflexivity.
  - apply (handle_photo_states maintenant "1" "2,50€ 01/11/2026"
             (run ticket_sans_montant initial_world)).
    split; [|discriminate]. eexists. split; reflexivity.
Qed.

(** ** Commit, then look the identifier up *)

Lemma find_by_id_app i fd f :
  find_by_id i (fd ++ [f]) =
    match find_by_id i fd with
    | Some x => Some x
    | None => if (frais_id f =? i)%Z then Some f else None
    end.
Proof.
  unfold find_by_id. induction fd as [|x fd IH]; cbn [app find]; [reflexivity|].
  destruct (frais_id x =? i)%Z; [reflexivity|exact IH].
Qed.

(** The commit of [handle_category_selection]; the look-up finds the new
    entry when its identifier is not already in the store. *)
Lemma commit_then_find_by_id now w pending montant cat_index categorie :
  pending_frais (user w) = Some pending ->
  info_montant pending = Some montant ->
  Qeq_bool montant 0 = false ->
  py_index CATEGORIES cat_index = Ret categorie ->
  exists total,
    handle_category_selection now cat_index w =
      (Ret tt,
       mk_world
         (frais_data w ++
            [nouveau_frais now (frais_data w) (info_date pending) montant categorie])%list
         (mk_user_data None (pending_category (user w)))
         (sent w ++ [FraisEnregistre categorie montant (info_date pending) total])%list) /\
    (find_by_id (Z.of_nat (List.length (frais_data w)) + 1) (frais_data w) = None ->
     find_by_id (Z.of_nat (List.length (frais_data w)) + 1)
       (frais_data (snd (handle_category_selection now cat_index w)))
     = Some (nouveau_frais now (frais_data w) (info_date pending) montant categorie)).
Proof.
  intros Hp Hm Hq Hc.
  exists (py_sum (map frais_montant
            (filter (fun f => endswith (frais_date f) (strftime_mY now))
               (frais_data w ++
                  [nouveau_frais now (frais_data w) (info_date pending) montant categorie])%list))).
  match goal with |- ?l = ?r /\ _ => assert (E : l = r) end.
  { unfold handle_category_selection. run_handler. rewrite Hc, Hp. cbn.
    rewrite Hm, Hq. cbn. reflexivity. }
  split; [exact E|]. intros Hf. rewrite E. cbn [snd frais_data].
  rewrite find_by_id_app, Hf. cbn [nouveau_frais frais_id]. now rewrite Z.eqb_refl.
Qed.

(** Claim C8, after two receipts and the deletion of the first: the third
    receipt is committed with the id 2 and the pending candidate is cleared,
    but looking the id 2 up returns the second receipt, not the one just
    committed. *)
Theorem C8_find_by_id_returns_older_entry :
  pending_frais (user (run avant_troisieme initial_world)) =
    Some (mk_info (Some 7%Q) "01/01/2024" "7,00€ 01/01/2024") /\
  frais_data (snd (handle_category_selection maintenant 6 (run avant_troisieme initial_world))) =
    [ mk_frais 2 "01/11/2026" (5 # 2)%Q "Repas professionnels" maintenant;
      mk_frais 2 "01/01/2024" 7%Q "Autres" maintenant ] /\
  user (snd (handle_category_selection maintenant 6 (run avant_troisieme initial_world))) =
    mk_user_data None None /\
  find_by_id 2
    (frais_data (snd (handle_category_selection maintenant 6 (run avant_troisieme initial_world)))) =
    Some (mk_frais 2 "01/11/2026" (5 # 2)%Q "Repas professionnels" maintenant).
Proof. repeat split. Qed.


(** ** Scenarios of the specification, run on the embedding *)

Example parse_douze_cinquante :
  parse_ticket_info maintenant "CB 12.50€" =
    Ret (mk_info (Some (25 # 2)%Q) "04/11/2026" "CB 12.50€").
Proof. reflexivity. Qed.

Example parse_pattern_order_beats_position :
  parse_ticket_info maintenant "TOTAL 9,99 EUR 01/02/03 puis 04/05/2006" =
    Ret (mk_info (Some (999 # 100)%Q) "04/05/2006"
           "TOTAL 9,99 EUR 01/02/03 puis 04/05/2006").
Proof. reflexivity. Qed.

Example scenario_fournitures :
  frais_data
    (run [ (maintenant, Photo (Some "MERCI TOTAL 15,00€ 02/01/2025"));
           (maintenant, CallbackQuery 3) ] initial_world) =
    [mk_frais 1 "02/01/2025" 15%Q "Fournitures" maintenant].
Proof. reflexivity. Qed.

Example scenario_supprimer_twice :
  sent (run [ (maintenant, Command "supprimer" ["1"]);
              (maintenant, Command "supprimer" ["1"]);
              (maintenant, Command "supprimer" ["un"]) ]
          (run un_ticket initial_world)) =
    (sent (run un_ticket initial_world)
       ++ [FraisSupprime 1; FraisIntrouvable 1; IdInvalide])%list.
Proof. reflexivity. Qed.

(** * Further properties of the handlers *)

(** ** [/supprimer] *)

Lemma datetime_eqb_refl d : datetime_eqb d d = true.
Proof. unfold datetime_eqb. now rewrite !N.eqb_refl. Qed.

Lemma frais_eqb_refl f : frais_eqb f f = true.
Proof.
  unfold frais_eqb. rewrite Z.eqb_refl, !String.eqb_refl, datetime_eqb_refl.
  assert (Qeq_bool (frais_montant f) (frais_montant f) = true) as ->
    by (apply Qeq_bool_iff; reflexivity).
  reflexivity.
Qed.

Lemma frais_eqb_id a b : frais_eqb a b = true -> frais_id a = frais_id b.
Proof.
  unfold frais_eqb. intros H. repeat (apply andb_prop in H as [H _]).
  now apply Z.eqb_eq.
Qed.

(** The entry [find_by_id] returns is the first one with the identifier, and
    [list.remove] takes out that very entry. *)
Lemma find_then_remove i fd x :
  find_by_id i fd = Some x ->
  exists before after,
    fd = (before ++ x :: after)%list /\
    frais_id x = i /\
    (forall y, In y before -> frais_id y <> i) /\
    py_remove x fd = Ret (before ++ after)%list.
Proof.
  unfold find_by_id. induction fd as [|y fd IH]; cbn [find py_remove]; [discriminate|].
  destruct (frais_id y =? i)%Z eqn:E.
  - intros [= ->]. apply Z.eqb_eq in E. rewrite frais_eqb_refl.
    exists [], fd. repeat split; auto.
  - intros H. destruct (IH H) as (before & after & -> & Hx & Hb & Hr).
    apply Z.eqb_neq in E.
    destruct (frais_eqb y x) eqn:Ey.
    + apply frais_eqb_id in Ey. congruence.
    + rewrite Hr. exists (y :: before), after. repeat split; auto.
      intros z [<-|Hz]; auto.
Qed.

Lemma find_by_id_None i fd :
  find_by_id i fd = None <-> ~ In i (map frais_id fd).
Proof.
  unfold find_by_id. induction fd as [|y fd IH]; cbn [find map In]; [tauto|].
  destruct (frais_id y =? i)%Z eqn:E.
  - apply Z.eqb_eq in E. split; [discriminate|]. intros H. elim H. now left.
  - apply Z.eqb_neq in E. rewrite IH. tauto.
Qed.

Lemma supprimer_command_run (args : list string) (w : world) :
  fst (supprimer_command args w) = Ret tt /\
  user (snd (supprimer_command args w)) = user w /\
  match args with
  | [] =>
      frais_data (snd (supprimer_command args w)) = frais_data w /\
      sent (snd (supprimer_command args w)) = (sent w ++ [UsageSupprimer])%list
  | a :: _ =>
      match py_int a with
      | None =>
          frais_data (snd (supprimer_command args w)) = frais_data w /\
          sent (snd (supprimer_command args w)) = (sent w ++ [IdInvalide])%list
      | Some i =>
          (~ In i (map frais_id (frais_data w)) ->
           frais_data (snd (supprimer_command args w)) = frais_data w /\
           sent (snd (supprimer_command args w)) = (sent w ++ [FraisIntrouvable i])%list) /\
          (In i (map frais_id (frais_data w)) ->
           exists before x after,
             frais_data w = (before ++ x :: after)%list /\
             frais_id x = i /\
             (forall y, In y before -> frais_id y <> i) /\
             frais_data (snd (supprimer_command args w)) = (before ++ after)%list /\
             sent (snd (supprimer_command args w)) = (sent w ++ [FraisSupprime i])%list)
      end
  end.
Proof.
  destruct args as [|a rest]; [repeat split|].
  unfold supprimer_command. run_handler.
  destruct (py_int a) as [i|]; cbn; [|repeat split].
  destruct (find_by_id i (frais_data w)) as [x|] eqn:F.
  - destruct (find_then_remove _ _ _ F) as (before & after & Hfd & Hx & Hb & Hr).
    rewrite Hr. cbn. split; [reflexivity|]. split; [reflexivity|]. split.
    + intros Hn. elim Hn. rewrite Hfd, map_app, in_app_iff. right. now left.
    + intros _. exists before, x, after. repeat split; auto.
  - cbn. split; [reflexivity|]. split; [reflexivity|]. split.
    + intros _. split; reflexivity.
    + intros Hin. apply find_by_id_None in F. contradiction.
Qed.

(** What [/supprimer] answers and does, case by case.  It never raises and
    leaves the pending entry alone; with an ASCII argument, the answer and
    the store follow what [int] reads. *)
Theorem supprimer_command_cases (args : list string) (w : world) :
  fst (supprimer_command args w) = Ret tt /\
  user (snd (supprimer_command args w)) = user w /\
  match args with
  | [] =>
      frais_data (snd (supprimer_command args w)) = frais_data w /\
      sent (snd (supprimer_command args w)) = (sent w ++ [UsageSupprimer])%list
  | a :: _ =>
      est_ascii a = true ->
      match py_int a with
      | None =>
          frais_data (snd (supprimer_command args w)) = frais_data w /\
          sent (snd (supprimer_command args w)) = (sent w ++ [IdInvalide])%list
      | Some i =>
          (~ In i (map frais_id (frais_data w)) ->
           frais_data (snd (supprimer_command args w)) = frais_data w /\
           sent (snd (supprimer_command args w)) = (sent w ++ [FraisIntrouvable i])%list) /\
          (In i (map frais_id (frais_data w)) ->
           exists before x after,
             frais_data w = (before ++ x :: after)%list /\
             frais_id x = i /\
             (forall y, In y before -> frais_id y <> i) /\
             frais_data (snd (supprimer_command args w)) = (before ++ after)%list /\
             sent (snd (supprimer_command args w)) = (sent w ++ [FraisSupprime i])%list)
      end
  end.
Proof.
  destruct (supprimer_command_run args w) as (Hr & Hu & H).
  split; [exact Hr|]. split; [exact Hu|].
  destruct args as [|a rest]; [exact H|]. intros _. exact H.
Qed.

(** With pairwise distinct identifiers a second [/supprimer] of the same
    identifier finds nothing. *)
Theorem supprimer_twice (a : string) (i : Z) (w : world) :
  py_int a = Some i ->
  NoDup (map frais_id (frais_data w)) ->
  In i (map frais_id (frais_data w)) ->
  let w1 := snd (supprimer_command [a] w) in
  let w2 := snd (supprimer_command [a] w1) in
  List.length (frais_data w1) + 1 = List.length (frais_data w) /\
  ~ In i (map frais_id (frais_data w1)) /\
  frais_data w2 = frais_data w1 /\
  sent w2 = (sent w ++ [FraisSupprime i; FraisIntrouvable i])%list.
Proof.
  intros Ha Hn Hin w1 w2.
  pose proof (supprimer_command_run [a] w) as (_ & _ & H1). rewrite Ha in H1.
  destruct H1 as [_ H1]. destruct (H1 Hin) as (before & x & after & Hfd & Hx & Hb & Hfd1 & Hs1).
  fold w1 in Hfd1, Hs1.
  assert (Hni : ~ In i (map frais_id (frais_data w1))).
  { rewrite Hfd1. rewrite Hfd, map_app in Hn. cbn [map] in Hn.
    apply NoDup_remove_2 in Hn. rewrite map_app. now rewrite Hx in Hn. }
  pose proof (supprimer_command_run [a] w1) as (_ & _ & H2). rewrite Ha in H2.
  destruct H2 as [H2 _]. destruct (H2 Hni) as [Hfd2 Hs2]. fold w2 in Hfd2, Hs2.
  repeat split; auto.
  - rewrite Hfd1, Hfd, !length_app. cbn. lia.
  - rewrite Hs2, Hs1, <- app_assoc. reflexivity.
Qed.

Lemma supprimer_twice_witness :
  frais_data (snd (supprimer_command ["1"] (snd (supprimer_command ["1"] (run un_ticket initial_world)))))
    = frais_data (snd (supprimer_command ["1"] (run un_ticket initial_world))).
Proof.
  apply (supprimer_twice "1" 1 (run un_ticket initial_world)).
  - reflexivity.
  - repeat constructor. intros [].
  - now left.
Defined.

(** ** [/liste] *)

(** [/liste] shows the last twenty entries, in the order of the store. *)
Theorem liste_command_last_twenty (w : world) :
  fst (liste_command w) = Ret tt /\
  frais_data (snd (liste_command w)) = frais_data w /\
  user (snd (liste_command w)) = user w /\
  (frais_data w = [] -> sent (snd (liste_command w)) = (sent w ++ [AucunFraisListe])%list) /\
  (frais_data w <> [] ->
   exists hidden shown,
     sent (snd (liste_command w)) = (sent w ++ [ListeFrais shown])%list /\
     frais_data w = (hidden ++ shown)%list /\
     List.length shown = Nat.min 20 (List.length (frais_data w))).
Proof.
  unfold liste_command, bind, get_frais_data, send. cbv beta iota.
  destruct w as [[|f fd] u s]; cbn [frais_data user sent fst snd].
  - repeat split; auto. congruence.
  - repeat split; auto; [discriminate|]. intros _.
    exists (firstn (List.length (f :: fd) - 20) (f :: fd)),
           (skipn (List.length (f :: fd) - 20) (f :: fd)).
    split; [reflexivity|]. split; [now rewrite firstn_skipn|].
    rewrite length_skipn. lia.
Qed.

(** ** Reports leave the state alone *)

Lemma recap_command_user now args w : user (snd (recap_command now args w)) = user w.
Proof.
  unfold recap_command. run_handler. destruct (filter _ (frais_data w)); reflexivity.
Qed.

Lemma stats_command_user w : user (snd (stats_command w)) = user w.
Proof.
  unfold stats_command. run_handler. destruct (frais_data w) as [|f fd]; cbn; auto.
  destruct (stats_lignes _ _); cbn; auto.
Qed.

Lemma export_command_user now args w : user (snd (export_command now args w)) = user w.
Proof.
  unfold export_command. run_handler. destruct (frais_data w) as [|f fd]; cbn; auto.
  destruct args as [|a args]; cbn; destruct (dataframe_columns _); cbn; auto.
Qed.

Lemma liste_command_user w : user (snd (liste_command w)) = user w.
Proof.
  unfold liste_command. run_handler. destruct (frais_data w) as [|f fd]; cbn; auto.
Qed.

Lemma report_same_state now name args w :
  is_report name = true ->
  frais_data (step w (now, Command name args)) = frais_data w /\
  user (step w (now, Command name args)) = user w.
Proof.
  unfold is_report, step. cbn [fst snd handle]. intros H.
  destruct (String.eqb name "start"); [split; reflexivity|].
  destruct (String.eqb name "help"); [split; reflexivity|].
  destruct (String.eqb name "recap");
    [split; [apply recap_command_frais_data|apply recap_command_user]|].
  destruct (String.eqb name "stats");
    [split; [apply stats_command_frais_data|apply stats_command_user]|].
  destruct (String.eqb name "export");
    [split; [apply export_command_frais_data|apply export_command_user]|].
  destruct (String.eqb name "liste");
    [split; [apply liste_command_frais_data|apply liste_command_user]|].
  discriminate.
Qed.

(** A report command changes neither the store nor the pending entry, also
    when it raises. *)
Theorem reports_read_only (now : datetime) (name : string) (args : list string) (w : world) :
  is_report name = true ->
  frais_data (step w (now, Command name args)) = frais_data w /\
  user (step w (now, Command name args)) = user w.
Proof. apply report_same_state. Qed.

Lemma reports_read_only_witness :
  frais_data (step (run un_ticket initial_world) (maintenant, Command "export" ["2025"]))
    = frais_data (run un_ticket initial_world) /\
  user (step (run un_ticket initial_world) (maintenant, Command "export" ["2025"]))
    = user (run un_ticket initial_world).
Proof. apply (reports_read_only maintenant "export" ["2025"]). reflexivity. Defined.

(** ** [handle_photo] *)

(** A photo never raises and never touches the store.  Without a text from
    the OCR nothing pending changes; with one, of ASCII characters and euro
    signs, the parsed candidate becomes the pending entry and an amount of
    zero is announced as not detected. *)
Theorem handle_photo_cases (now : datetime) (ocr : option string) (w : world) :
  fst (handle_photo now ocr w) = Ret tt /\
  frais_data (snd (handle_photo now ocr w)) = frais_data w /\
  match ocr with
  | None | Some EmptyString =>
      user (snd (handle_photo now ocr w)) = user w /\
      sent (snd (handle_photo now ocr w)) = (sent w ++ [PhotoRecue; TicketIllisible])%list
  | Some text =>
      texte_simple text = true ->
      exists i,
        parse_ticket_info now text = Ret i /\
        pending_frais (user (snd (handle_photo now ocr w))) = Some i /\
        sent (snd (handle_photo now ocr w)) =
          (sent w ++ [PhotoRecue;
                      TicketAnalyse
                        (match info_montant i with
                         | Some q => if Qeq_bool q 0 then None else Some q
                         | None => None
                         end)
                        (info_date i)])%list
  end.
Proof.
  destruct ocr as [[|c s]|].
  - unfold handle_photo. run_handler. rewrite <- app_assoc.
    destruct w as [fd [pf pc] st]; repeat split.
  - destruct (handle_photo_user now c s w) as (i & Hi & ->). cbn.
    split; [reflexivity|]. split; [reflexivity|]. intros _.
    exists i. repeat split; auto.
    destruct (info_montant i) as [q|]; cbn; [|reflexivity].
    destruct (Qeq_bool q 0); reflexivity.
  - unfold handle_photo. run_handler. rewrite <- app_assoc.
    destruct w as [fd [pf pc] st]; repeat split.
Qed.

(** ** The total announced after a commit *)

Lemma get_total_mois_run now w : get_total_mois now w = (Ret (total_mois now (frais_data w)), w).
Proof. reflexivity. Qed.

Lemma total_mois_app now fd f :
  (total_mois now (fd ++ [f])
   == total_mois now fd
      + (if endswith (frais_date f) (strftime_mY now) then frais_montant f else 0))%Q.
Proof.
  unfold total_mois. rewrite filter_app, map_app, py_sum_app. cbn [filter].
  destruct (endswith (frais_date f) (strftime_mY now)); cbn [map].
  - rewrite py_sum_cons. change (py_sum []) with 0%Q. ring.
  - change (py_sum []) with 0%Q. ring.
Qed.

Lemma handle_montant_manuel_commit now w text pending categorie montant :
  pending_frais (user w) = Some pending ->
  pending_category (user w) = Some categorie ->
  py_float (replace "," "." text) = Some montant ->
  handle_montant_manuel now text w =
    (Ret tt,
     mk_world
       (frais_data w ++
          [nouveau_frais now (frais_data w) (info_date pending) montant categorie])%list
       (mk_user_data None None)
       (sent w ++
          [FraisEnregistre categorie montant (info_date pending)
             (total_mois now
                (frais_data w ++
                   [nouveau_frais now (frais_data w) (info_date pending) montant
                      categorie])%list)])%list).
Proof.
  intros Hp Hc Hf. unfold handle_montant_manuel. run_handler.
  rewrite Hc. cbn. rewrite Hf, Hp. reflexivity.
Qed.

Lemma handle_category_selection_commit now w pending montant cat_index categorie :
  pending_frais (user w) = Some pending ->
  info_montant pending = Some montant ->
  Qeq_bool montant 0 = false ->
  py_index CATEGORIES cat_index = Ret categorie ->
  handle_category_selection now cat_index w =
    (Ret tt,
     mk_world
       (frais_data w ++
          [nouveau_frais now (frais_data w) (info_date pending) montant categorie])%list
       (mk_user_data None (pending_category (user w)))
       (sent w ++
          [FraisEnregistre categorie montant (info_date pending)
             (total_mois now
                (frais_data w ++
                   [nouveau_frais now (frais_data w) (info_date pending) montant
                      categorie])%list)])%list).
Proof.
  intros Hp Hm Hq Hc. unfold handle_category_selection. run_handler.
  rewrite Hc, Hp. cbn. rewrite Hm, Hq. reflexivity.
Qed.

(** The total of the month printed with a commit is the total before it,
    plus the new amount when the date of the receipt ends with the current
    month and year. *)
Theorem total_after_commit (now : datetime) (w : world) (pending : info) :
  pending_frais (user w) = Some pending ->
  (forall montant cat_index categorie,
     info_montant pending = Some montant ->
     Qeq_bool montant 0 = false ->
     py_index CATEGORIES cat_index = Ret categorie ->
     exists total,
       sent (snd (handle_category_selection now cat_index w)) =
         (sent w ++ [FraisEnregistre categorie montant (info_date pending) total])%list /\
       (total == total_mois now (frais_data w)
                 + (if endswith (info_date pending) (strftime_mY now)
                    then montant else 0))%Q) /\
  (forall text montant categorie,
     pending_category (user w) = Some categorie ->
     py_float (replace "," "." text) = Some montant ->
     exists total,
       sent (snd (handle_montant_manuel now text w)) =
         (sent w ++ [FraisEnregistre categorie montant (info_date pending) total])%list /\
       (total == total_mois now (frais_data w)
                 + (if endswith (info_date pending) (strftime_mY now)
                    then montant else 0))%Q).
Proof.
  intros Hp. split.
  - intros montant cat_index categorie Hm Hq Hc.
    rewrite (handle_category_selection_commit now w pending montant cat_index categorie)
      by assumption.
    eexists. split; [reflexivity|]. now rewrite total_mois_app.
  - intros text montant categorie Hc Hf.
    rewrite (handle_montant_manuel_commit now w text pending categorie montant)
      by assumption.
    eexists. split; [reflexivity|]. now rewrite total_mois_app.
Qed.

Lemma total_after_commit_witness :
  exists total,
    sent (snd (handle_category_selection maintenant 6 (run avant_troisieme initial_world))) =
      (sent (run avant_troisieme initial_world)
         ++ [FraisEnregistre "Autres" 7%Q "01/01/2024" total])%list /\
    (total == 5 # 2)%Q.
Proof.
  destruct (total_after_commit maintenant (run avant_troisieme initial_world)
              (mk_info (Some 7%Q) "01/01/2024" "7,00€ 01/01/2024") eq_refl) as [H _].
  destruct (H 7%Q 6%Z "Autres" eq_refl eq_refl eq_refl) as (total & Hs & Ht).
  exists total. split; [exact Hs|]. rewrite Ht. reflexivity.
Defined.

(** ** Whole flows *)

(** A photo whose text, of ASCII characters and euro signs, carries an
    amount, then a category: one entry is appended with the parsed date and
    amount under the chosen category, and no candidate stays pending. *)
Theorem photo_then_category
  (now1 now2 : datetime) (w : world) (c : ascii) (s : string)
  (i : info) (montant : Q) (cat_index : Z) (categorie : string) :
  texte_simple (String c s) = true ->
  parse_ticket_info now1 (String c s) = Ret i ->
  info_montant i = Some montant ->
  Qeq_bool montant 0 = false ->
  py_index CATEGORIES cat_index = Ret categorie ->
  let w' := run [(now1, Photo (Some (String c s))); (now2, CallbackQuery cat_index)] w in
  frais_data w' =
    (frais_data w ++
       [mk_frais (Z.of_nat (List.length (frais_data w)) + 1) (info_date i) montant
          categorie now2])%list /\
  pending_frais (user w') = None /\
  exists total,
    sent w' =
      (sent w ++ [PhotoRecue; TicketAnalyse (Some montant) (info_date i);
                  FraisEnregistre categorie montant (info_date i) total])%list.
Proof.
  intros _ Hi Hm Hq Hc w'.
  assert (T : truthy (info_montant i) = true) by (unfold truthy; now rewrite Hm, Hq).
  assert (E : w' =
    mk_world
      (frais_data w ++ [nouveau_frais now2 (frais_data w) (info_date i) montant categorie])%list
      (mk_user_data None (pending_category (user w)))
      ((sent w ++ [PhotoRecue; TicketAnalyse (Some montant) (info_date i)]) ++
         [FraisEnregistre categorie montant (info_date i)
            (total_mois now2
               (frais_data w ++
                  [nouveau_frais now2 (frais_data w) (info_date i) montant categorie])%list)])%list).
  { subst w'. unfold run, step. cbn [fold_left fst snd handle].
    destruct (handle_photo_user now1 c s w) as (i' & Hi' & ->).
    assert (i' = i) as -> by congruence. cbn [snd]. rewrite T, Hm.
    now rewrite (handle_category_selection_commit now2 _ i montant cat_index categorie)
      by (try assumption; reflexivity). }
  rewrite E. cbn [frais_data user sent pending_frais].
  repeat split. eexists. rewrite <- app_assoc. reflexivity.
Qed.

Lemma photo_then_category_witness :
  frais_data
    (run [ (maintenant, Photo (Some "MERCI TOTAL 15,00€ 02/01/2025"));
           (maintenant, CallbackQuery 3) ] (run un_ticket initial_world)) =
    [ mk_frais 1 "01/01/2024" 7%Q "Autres" maintenant;
      mk_frais 2 "02/01/2025" 15%Q "Fournitures" maintenant ].
Proof.
  apply (photo_then_category maintenant maintenant (run un_ticket initial_world)
           "M" "ERCI TOTAL 15,00€ 02/01/2025"
           (mk_info (Some 15%Q) "02/01/2025" "MERCI TOTAL 15,00€ 02/01/2025")
           15%Q 3 "Fournitures"); reflexivity.
Defined.

(** A photo whose text, of ASCII characters and euro signs, carries no
    usable amount, a category, then a typed decimal literal: whatever was
    pending before, one entry is appended with the parsed date, the typed
    amount and the chosen category, and nothing stays pending. *)
Theorem photo_category_then_amount
  (now1 now2 now3 : datetime) (w : world) (c : ascii) (s : string)
  (i : info) (cat_index : Z) (categorie text : string) (montant : Q) :
  texte_simple (String c s) = true ->
  est_ascii text = true ->
  parse_ticket_info now1 (String c s) = Ret i ->
  truthy (info_montant i) = false ->
  py_index CATEGORIES cat_index = Ret categorie ->
  py_float (replace "," "." text) = Some montant ->
  let w' := run [ (now1, Photo (Some (String c s)));
                  (now2, CallbackQuery cat_index);
                  (now3, Text text) ] w in
  frais_data w' =
    (frais_data w ++
       [mk_frais (Z.of_nat (List.length (frais_data w)) + 1) (info_date i) montant
          categorie now3])%list /\
  user w' = mk_user_data None None /\
  exists total,
    sent w' =
      (sent w ++ [PhotoRecue; TicketAnalyse None (info_date i); DemandeMontant;
                  FraisEnregistre categorie montant (info_date i) total])%list.
Proof.
  intros _ _ Hi Ht Hc Hf w'.
  assert (E : w' =
    mk_world
      (frais_data w ++ [nouveau_frais now3 (frais_data w) (info_date i) montant categorie])%list
      (mk_user_data None None)
      (((sent w ++ [PhotoRecue; TicketAnalyse None (info_date i)]) ++ [DemandeMontant]) ++
         [FraisEnregistre categorie montant (info_date i)
            (total_mois now3
               (frais_data w ++
                  [nouveau_frais now3 (frais_data w) (info_date i) montant categorie])%list)])%list).
  { subst w'. unfold run, step. cbn [fold_left fst snd handle].
    destruct (handle_photo_user now1 c s w) as (i' & Hi' & ->).
    assert (i' = i) as -> by congruence. cbn [snd]. rewrite Ht.
    assert (E2 : handle_category_selection now2 cat_index
                  (mk_world (frais_data w)
                     (mk_user_data (Some i) (pending_category (user w)))
                     (sent w ++ [PhotoRecue; TicketAnalyse None (info_date i)])%list) =
                (Ret tt,
                 mk_world (frais_data w) (mk_user_data (Some i) (Some categorie))
                   ((sent w ++ [PhotoRecue; TicketAnalyse None (info_date i)])
                      ++ [DemandeMontant])%list)).
    { unfold handle_category_selection. run_handler. rewrite Hc. cbn.
      unfold truthy in Ht. destruct (info_montant i) as [q|]; [|reflexivity].
      apply negb_false_iff in Ht. rewrite Ht. reflexivity. }
    rewrite E2. cbn [snd].
    now rewrite (handle_montant_manuel_commit now3 _ text i categorie montant)
      by (try assumption; reflexivity). }
  rewrite E. cbn [frais_data user sent].
  repeat split. eexists. rewrite <- !app_assoc. reflexivity.
Qed.

Lemma photo_category_then_amount_witness :
  frais_data
    (run [ (maintenant, Photo (Some "ticket sans montant 05/03/24"));
           (maintenant, CallbackQuery 6);
           (maintenant, Text "7,5") ] initial_world) =
    [mk_frais 1 "05/03/2024" (15 # 2)%Q "Autres" maintenant].
Proof.
  apply (photo_category_then_amount maintenant maintenant maintenant initial_world
           "t" "icket sans montant 05/03/24"
           (mk_info None "05/03/2024" "ticket sans montant 05/03/24")
           6 "Autres" "7,5" (15 # 2)%Q); reflexivity.
Defined.

(** ** The date the parser returns *)

Lemma forallb_below (f : N -> bool) (k : N) :
  forallb f (map N.of_nat (seq 0 (N.to_nat k))) = true ->
  forall n, (n < k)%N -> f n = true.
Proof.
  intros H n Hn. rewrite forallb_forall in H. apply H.
  apply in_map_iff. exists (N.to_nat n). split; [apply N2Nat.id|].
  apply in_seq. lia.
Qed.

Lemma strftime_dmY_valide now : calendrier now = true -> date_valide (strftime_dmY now) = true.
Proof.
  unfold calendrier. intros H.
  repeat (apply andb_prop in H as [H ?]).
  repeat match goal with X : (_ <=? _)%N = true |- _ => apply N.leb_le in X end.
  destruct now as [y mo d ck]. cbn [dt_day dt_month dt_year] in *.
  unfold strftime_dmY, strftime_mY. cbn [dt_day dt_month dt_year].
  pose (two := fun n => match pad_left 2 (str_of_N n) with
                        | String a (String b EmptyString) => is_digit a && is_digit b
                        | _ => false
                        end).
  pose (four := fun n => match pad_left 4 (str_of_N n) with
                         | String a (String b (String c (String e EmptyString))) =>
                             is_digit a && is_digit b && is_digit c && is_digit e
                         | _ => false
                         end).
  assert (Hd : two d = true)
    by (apply (forallb_below two 100%N); [vm_compute; reflexivity|lia]).
  assert (Hm : two mo = true)
    by (apply (forallb_below two 100%N); [vm_compute; reflexivity|lia]).
  assert (Hy : four y = true)
    by (apply (forallb_below four 10000%N); [vm_compute; reflexivity|lia]).
  unfold two, four in Hd, Hm, Hy. clear two four.
  destruct (pad_left 2 (str_of_N d)) as [|a1 [|a2 [|]]]; try discriminate.
  destruct (pad_left 2 (str_of_N mo)) as [|b1 [|b2 [|]]]; try discriminate.
  destruct (pad_left 4 (str_of_N y)) as [|c1 [|c2 [|c3 [|c4 [|]]]]]; try discriminate.
  cbn. apply andb_prop in Hd as [-> ->]. apply andb_prop in Hm as [-> ->].
  repeat (apply andb_prop in Hy as [Hy ->]). now rewrite Hy.
Qed.

Lemma length_4 (p : string) :
  String.length p = 4%nat ->
  exists a b c d, p = String a (String b (String c (String d ""))).
Proof. destruct p as [|a [|b [|c [|d [|e p]]]]]; try discriminate. eauto 6. Qed.

Lemma date_shape_valide n j mo a q prefix :
  date_shape n j mo a q ->
  String.length (prefix ++ a) = 4%nat -> all_in Digit prefix = true ->
  date_valide (j ++ "/" ++ mo ++ "/" ++ prefix ++ a) = true.
Proof.
  intros (s1 & s2 & _ & _ & _ & Lj & Dj & Lm & Dm & _ & Da) L Dp.
  destruct (length_2 _ Lj) as (j1 & j2 & ->). destruct (length_2 _ Lm) as (m1 & m2 & ->).
  assert (Dy : all_in Digit (prefix ++ a) = true) by now rewrite all_in_append, Dp, Da.
  destruct (length_4 _ L) as (a1 & a2 & a3 & a4 & E). rewrite E in *.
  cbn [all_in in_class] in Dj, Dm, Dy. cbn [append date_valide].
  rewrite !andb_true_r in Dj, Dm, Dy.
  apply andb_prop in Dj as [-> ->]. apply andb_prop in Dm as [-> ->].
  apply andb_prop in Dy as [-> Dy]. apply andb_prop in Dy as [-> Dy].
  apply andb_prop in Dy as [-> ->]. reflexivity.
Qed.

Lemma parse_ticket_info_date now text :
  calendrier now = true ->
  exists i, parse_ticket_info now text = Ret i /\ date_valide (info_date i) = true.
Proof.
  intros Hc. destruct (parse_ticket_info_Ret now text) as (r & Hr & Hp).
  eexists. split; [exact Hp|]. cbn [info_date].
  destruct (search_date_cases text)
    as [->|[(j & mo & a & q & Hs & ->)|(j & mo & a & q & Hs & ->)]].
  - now apply strftime_dmY_valide.
  - pose proof (date_shape_valide _ _ _ _ _ "" Hs) as V. cbn [append] in V.
    destruct (date_shape_jour _ _ _ _ _ Hs) as (La & c & d & ->). cbn [append] in *.
    apply V; [exact La|reflexivity].
  - pose proof (date_shape_valide _ _ _ _ _ "20" Hs) as V.
    destruct (date_shape_jour _ _ _ _ _ Hs) as (La & c & d & ->). cbn [append] in *.
    apply V; [|reflexivity]. cbn. now rewrite La.
Qed.

(** Whatever a receipt of ASCII characters and euro signs reads, the date of
    the candidate is [dd/mm/yyyy]: separators become slashes and a two-digit
    year gets its century. *)
Theorem parse_date_valide (now : datetime) (text : string) :
  texte_simple text = true ->
  calendrier now = true ->
  exists i, parse_ticket_info now text = Ret i /\ date_valide (info_date i) = true.
Proof. intros _. apply parse_ticket_info_date. Qed.

Lemma parse_date_valide_witness :
  exists i,
    parse_ticket_info maintenant "le 05-03-24, 12,00 EUR" = Ret i /\
    date_valide (info_date i) = true.
Proof. apply (parse_date_valide maintenant "le 05-03-24, 12,00 EUR"); reflexivity. Defined.

(** ** What the store holds, whatever the updates *)

Lemma py_index_In {A} (l : list A) i a : py_index l i = Ret a -> In a l.
Proof.
  unfold py_index. destruct (_ <? 0)%Z; [discriminate|].
  destruct (nth_error l _) eqn:E; [|discriminate]. intros [= <-].
  now apply nth_error_In in E.
Qed.

Ltac same_state Hf Hpc Hpf :=
  split; [exact Hf|];
  split; cbn [user pending_frais pending_category];
    [first [exact Hpc|intros ? ?; congruence|intros ? ?; apply Hpc; congruence]
    |first [exact Hpf|intros ? ?; congruence|intros ? ?; apply Hpf; congruence]].

Lemma handle_photo_bien_forme now ocr w :
  calendrier now = true -> bien_forme w -> bien_forme (snd (handle_photo now ocr w)).
Proof.
  intros Hc (Hf & Hpc & Hpf). destruct ocr as [[|c s]|].
  - unfold handle_photo. run_handler. same_state Hf Hpc Hpf.
  - destruct (handle_photo_user now c s w) as (i & Hi & ->). cbn.
    repeat split; auto. cbn. intros i' [= <-].
    destruct (parse_ticket_info_date now (String c s) Hc) as (i' & Hi' & V). congruence.
  - unfold handle_photo. run_handler. same_state Hf Hpc Hpf.
Qed.

Lemma Forall_snoc {A} (P : A -> Prop) l x : Forall P l -> P x -> Forall P (l ++ [x]).
Proof. intros Hl Hx. apply Forall_app. split; [assumption|]. now constructor. Qed.

Lemma handle_category_selection_bien_forme now i w :
  bien_forme w -> bien_forme (snd (handle_category_selection now i w)).
Proof.
  intros (Hf & Hpc & Hpf). unfold handle_category_selection. run_handler.
  destruct (py_index CATEGORIES i) as [categorie|] eqn:E; cbn; [|same_state Hf Hpc Hpf].
  apply py_index_In in E.
  destruct (pending_frais (user w)) as [p|] eqn:Ep; cbn; [|same_state Hf Hpc Hpf].
  assert (Ask : bien_forme (mk_world (frais_data w) (mk_user_data (Some p) (Some categorie))
                              (sent w ++ [DemandeMontant])%list)).
  { split; [exact Hf|]. split; cbn; [now intros c [= <-]|now intros i' [= <-]; auto]. }
  destruct (info_montant p) as [q|]; cbn; [|rewrite Ep; exact Ask].
  destruct (Qeq_bool q 0); cbn; [rewrite Ep; exact Ask|].
  split; cbn; [|split; [exact Hpc|discriminate]].
  apply Forall_snoc; [assumption|]. split; [exact E|exact (Hpf p eq_refl)].
Qed.

Lemma handle_montant_manuel_bien_forme now text w :
  bien_forme w -> bien_forme (snd (handle_montant_manuel now text w)).
Proof.
  intros (Hf & Hpc & Hpf). unfold handle_montant_manuel. run_handler.
  destruct (pending_category (user w)) as [categorie|] eqn:Ec; cbn; [|same_state Hf Hpc Hpf].
  destruct (py_float (replace "," "." text)) as [q|]; cbn.
  - destruct (pending_frais (user w)) as [p|] eqn:Ep; cbn.
    + split; cbn; [|split; discriminate].
      apply Forall_snoc; [assumption|]. split; [exact (Hpc _ eq_refl)|exact (Hpf _ eq_refl)].
    + same_state Hf Hpc Hpf.
  - same_state Hf Hpc Hpf.
Qed.

Lemma supprimer_command_bien_forme args w :
  bien_forme w -> bien_forme (snd (supprimer_command args w)).
Proof.
  intros (Hf & Hpc & Hpf).
  destruct (supprimer_command_run args w) as (_ & Hu & H).
  unfold bien_forme. rewrite Hu. split; [|now split].
  destruct args as [|a rest]; [destruct H as [-> _]; assumption|].
  destruct (py_int a) as [i|]; [|destruct H as [-> _]; assumption].
  destruct H as [Hn Hy].
  destruct (in_dec Z.eq_dec i (map frais_id (frais_data w))) as [Hin|Hout].
  - destruct (Hy Hin) as (before & x & after & Hfd & _ & _ & -> & _).
    rewrite Hfd in Hf. apply Forall_app in Hf as [Hb Ha].
    apply Forall_app. split; [assumption|]. now inversion Ha.
  - destruct (Hn Hout) as [-> _]. assumption.
Qed.

Lemma handle_bien_forme now u w :
  calendrier now = true -> bien_forme w -> bien_forme (snd (handle now u w)).
Proof.
  intros Hc Hw. destruct u as [name args|ocr|text|i]; cbn [handle].
  - destruct (is_report name) eqn:R.
    + destruct (report_same_state now name args w R) as [Hf Hu].
      unfold step in Hf, Hu. cbn [fst snd handle] in Hf, Hu.
      unfold bien_forme. rewrite Hf, Hu. exact Hw.
    + unfold is_report in R. repeat (apply orb_false_elim in R as [R ?E]).
      rewrite R, E, E0, E1, E2, E3.
      destruct (String.eqb name "supprimer"); [now apply supprimer_command_bien_forme|exact Hw].
  - now apply handle_photo_bien_forme.
  - now apply handle_montant_manuel_bien_forme.
  - now apply handle_category_selection_bien_forme.
Qed.

(** From the empty store, whatever the updates at calendar dates, their
    texts in the range of the embedding: every entry carries one of the
    seven categories and a date [dd/mm/yyyy], and so does what is pending. *)
Theorem run_bien_forme (es : list (datetime * update)) :
  forallb (fun e => update_simple (snd e)) es = true ->
  forallb (fun e => calendrier (fst e)) es = true ->
  bien_forme (run es initial_world).
Proof.
  assert (G : forall w, forallb (fun e => calendrier (fst e)) es = true ->
                        bien_forme w -> bien_forme (run es w)).
  { induction es as [|[now u] es IH]; cbn [run fold_left forallb fst]; intros w H Hw;
      [assumption|].
    apply andb_prop in H as [Hn H]. apply IH; [assumption|].
    unfold step. cbn [fst snd]. now apply handle_bien_forme. }
  intros _ H. apply G; [assumption|].
  repeat split; [constructor|discriminate|discriminate].
Qed.

Lemma run_bien_forme_witness : bien_forme (run trois_tickets initial_world).
Proof. apply (run_bien_forme trois_tickets); reflexivity. Defined.

(** ** Buttons and what they select *)

Lemma string_of_uint_digits d : all_in Digit (NilEmpty.string_of_uint d) = true.
Proof. induction d; cbn; auto. Qed.

Lemma Z_of_digits_uint_acc d : forall acc,
  Z_of_digits (Zpos acc) (NilEmpty.string_of_uint d) = Zpos (Pos.of_uint_acc d acc).
Proof.
  induction d; intros acc; cbn [NilEmpty.string_of_uint Z_of_digits Pos.of_uint_acc];
    [reflexivity|..];
    match goal with
    | |- Z_of_digits (_ + ?dv)%Z _ = Zpos (Pos.of_uint_acc _ ?b) =>
        let v := eval vm_compute in dv in
        change dv with v; rewrite <- (IHd b); f_equal; lia
    end.
Qed.

Lemma Z_of_digits_uint d :
  Z_of_digits 0 (NilEmpty.string_of_uint d) = Z.of_N (Pos.of_uint d).
Proof.
  induction d; cbn [NilEmpty.string_of_uint Z_of_digits Pos.of_uint];
    [reflexivity|exact IHd|..];
    match goal with
    | |- Z_of_digits ?a _ = Z.of_N (Npos (Pos.of_uint_acc _ ?b)) =>
        change a with (Zpos b)
    end; apply Z_of_digits_uint_acc.
Qed.

Lemma str_of_N_spec n :
  exists c s, str_of_N n = String c s /\
              all_in Digit (String c s) = true /\
              Z_of_digits 0 (String c s) = Z.of_N n.
Proof.
  unfold str_of_N, NilZero.string_of_uint.
  pose proof (DecimalN.Unsigned.of_to n) as E. unfold N.of_uint in E.
  destruct (N.to_uint n) eqn:U.
  1: { exists "0"%char, "". cbn in E. subst n. repeat split. }
  all: lazymatch type of E with
       | Pos.of_uint ?d = _ =>
           eexists _, _; split; [reflexivity|]; split;
             [exact (string_of_uint_digits d)|rewrite <- E; exact (Z_of_digits_uint d)]
       end.
Qed.

Lemma py_int_digits c s :
  all_in Digit (String c s) = true -> py_int (String c s) = Some (Z_of_digits 0 (String c s)).
Proof.
  intros D. pose proof D as D'. cbn [all_in in_class] in D'.
  apply andb_prop in D' as [Dc _].
  unfold py_int. cbn [lstrip]. rewrite (digit_not_blank _ Dc), (digit_split_sign _ _ Dc).
  rewrite (span_digits_all _ D). reflexivity.
Qed.

Lemma split_digits s : all_in Digit s = true -> str_split "_" s = [s].
Proof.
  induction s as [|c s IH]; cbn [str_split all_in in_class]; [reflexivity|].
  intros H. apply andb_prop in H as [Hc H].
  now rewrite (digit_not_underscore _ Hc), (IH H).
Qed.

Lemma split_cat t : str_split "_" ("cat_" ++ t) = "cat" :: str_split "_" t.
Proof. reflexivity. Qed.

(** The data of a button reads back as the index it was built from. *)
Lemma callback_index_data i : callback_index (callback_data i) = Ret (Z.of_nat i).
Proof.
  unfold callback_index, callback_data.
  destruct (str_of_N_spec (N.of_nat i)) as (c & s & -> & D & V).
  rewrite split_cat, (split_digits _ D). cbn [nth_error].
  rewrite (py_int_digits _ _ D), V. now rewrite nat_N_Z.
Qed.

Lemma py_index_nth {A} (l : list A) (d : A) (i : nat) :
  (i < List.length l)%nat -> py_index l (Z.of_nat i) = Ret (nth i l d).
Proof.
  intros H. unfold py_index.
  destruct (Z.of_nat i <? 0)%Z eqn:E; [apply Z.ltb_lt in E; lia|]. rewrite E.
  rewrite Nat2Z.id. now rewrite (nth_error_nth' l d H).
Qed.

Lemma in_keyboard cats b :
  In b (concat (keyboard cats)) <->
  exists i, (i < List.length cats)%nat /\ b = (nth i cats "", callback_data i).
Proof.
  unfold keyboard, range_by_two. rewrite in_concat. split.
  - intros (row & Hrow & Hb). apply in_map_iff in Hrow as (i & <- & Hi).
    apply in_map_iff in Hi as (k & <- & Hk). apply in_seq in Hk.
    destruct Hb as [<-|Hb].
    + exists (2 * k)%nat. split; [|reflexivity].
      pose proof (Nat.div_mod_eq (List.length cats + 1) 2).
      pose proof (Nat.mod_upper_bound (List.length cats + 1) 2). lia.
    + destruct (2 * k + 1 <? List.length cats)%nat eqn:L; [|contradiction].
      apply Nat.ltb_lt in L. destruct Hb as [<-|[]]. eauto.
  - intros (i & Hi & ->).
    pose proof (Nat.div_mod_eq i 2) as Ei.
    pose proof (Nat.mod_upper_bound i 2 ltac:(lia)) as Bi.
    pose proof (Nat.div_mod_eq (List.length cats + 1) 2) as En.
    pose proof (Nat.mod_upper_bound (List.length cats + 1) 2 ltac:(lia)) as Bn.
    eexists. split.
    + apply in_map_iff. exists (2 * (i / 2))%nat. split; [reflexivity|].
      apply in_map_iff. exists (i / 2)%nat. split; [reflexivity|]. apply in_seq. lia.
    + destruct (Nat.eq_dec (i mod 2) 0) as [Z|NZ].
      * left. replace (2 * (i / 2))%nat with i by lia. reflexivity.
      * right. replace (2 * (i / 2) + 1)%nat with i by lia.
        assert (L : (i <? List.length cats)%nat = true) by now apply Nat.ltb_lt.
        rewrite L. now left.
Qed.

Lemma length_keyboard_rows (cats : list string) K :
  (2 * K <= List.length cats + 1)%nat ->
  List.length
    (concat
       (map (fun i =>
               (nth i cats "", callback_data i)
               :: (if (i + 1 <? List.length cats)%nat
                   then [(nth (i + 1) cats "", callback_data (i + 1))]
                   else []))
          (map (fun k => 2 * k)%nat (seq 0 K))))
  = Nat.min (2 * K) (List.length cats).
Proof.
  induction K as [|K IH]; intros H; [reflexivity|].
  rewrite seq_S, !map_app, concat_app, length_app, IH by lia.
  cbn [map concat List.length app plus].
  destruct (2 * K + 1 <? List.length cats)%nat eqn:L.
  - apply Nat.ltb_lt in L. rewrite app_nil_r. cbn [List.length]. lia.
  - apply Nat.ltb_ge in L. rewrite app_nil_r. cbn [List.length]. lia.
Qed.

(** Every category has its button, every row holds one or two buttons, and
    pressing a button selects the category written on it. *)
Theorem keyboard_round_trip (cats : list string) :
  (forall i, (i < List.length cats)%nat ->
     In (nth i cats "", callback_data i) (concat (keyboard cats))) /\
  List.length (concat (keyboard cats)) = List.length cats /\
  (forall row, In row (keyboard cats) ->
     List.length row = 1%nat \/ List.length row = 2%nat) /\
  (forall label data, In (label, data) (concat (keyboard cats)) ->
     exists i, callback_index data = Ret i /\ py_index cats i = Ret label) /\
  (forall now i w,
     handle_callback now (callback_data i) w = handle_category_selection now (Z.of_nat i) w).
Proof.
  split; [|split; [|split; [|split]]].
  - intros i Hi. apply in_keyboard. eauto.
  - unfold keyboard, range_by_two. rewrite length_keyboard_rows.
    + pose proof (Nat.div_mod_eq (List.length cats + 1) 2).
      pose proof (Nat.mod_upper_bound (List.length cats + 1) 2). lia.
    + pose proof (Nat.div_mod_eq (List.length cats + 1) 2). lia.
  - intros row Hrow. unfold keyboard in Hrow. apply in_map_iff in Hrow as (i & <- & _).
    destruct (i + 1 <? List.length cats)%nat; cbn; auto.
  - intros label data Hin. apply in_keyboard in Hin as (i & Hi & [= -> ->]).
    exists (Z.of_nat i). split; [apply callback_index_data|now apply py_index_nth].
  - intros now i w. unfold handle_callback, bind, lift.
    now rewrite callback_index_data.
Qed.

(** ** [/recap] *)

Lemma dict_set_keys_any {V} (d : list (string * V)) k v :
  map fst (dict_set d k v) =
    if in_dec string_dec k (map fst d) then map fst d else (map fst d ++ [k])%list.
Proof.
  induction d as [|[k0 v0] d IH]; cbn [dict_set map fst].
  - reflexivity.
  - destruct (String.eqb_spec k0 k) as [->|N]; cbn [map fst].
    + destruct (in_dec string_dec k (k :: map fst d)) as [|n]; [reflexivity|].
      elim n. now left.
    + rewrite IH. destruct (in_dec string_dec k (map fst d)) as [i|n];
        destruct (in_dec string_dec k (k0 :: map fst d)) as [i'|n']; try reflexivity.
      * elim n'. now right.
      * destruct i' as [?|?]; [congruence|contradiction].
Qed.

Lemma dict_get_In {V} (d : list (string * V)) k v :
  NoDup (map fst d) -> In (k, v) d -> dict_get d k = Some v.
Proof.
  induction d as [|[k0 v0] d IH]; cbn [map fst In dict_get]; [tauto|].
  intros Hn [[= -> ->]|Hin].
  - now rewrite String.eqb_refl.
  - inversion Hn as [|? ? Hk Hn']; subst.
    destruct (String.eqb_spec k0 k) as [->|]; [|auto].
    elim Hk. now apply (in_map fst) in Hin.
Qed.

Lemma regroupe_keys d f :
  map fst (regroupe d f) =
    if in_dec string_dec (frais_categorie f) (map fst d)
    then map fst d else (map fst d ++ [frais_categorie f])%list.
Proof. unfold regroupe. destruct (dict_get d _); apply dict_set_keys_any. Qed.

Lemma regroupe_get d f cat :
  match dict_get (regroupe d f) cat with Some v => v | None => [] end =
  (match dict_get d cat with Some v => v | None => [] end ++
   (if String.eqb (frais_categorie f) cat then [f] else []))%list.
Proof.
  unfold regroupe.
  destruct (dict_get d (frais_categorie f)) as [items|] eqn:E; rewrite dict_get_set;
    (destruct (String.eqb_spec (frais_categorie f) cat) as [<-|];
     [now rewrite E|now rewrite app_nil_r]).
Qed.

Lemma dict_set_count (d : list (string * list frais)) k items :
  (list_sum (map (fun ci => List.length (snd ci)) (dict_set d k items))
   + List.length (match dict_get d k with Some v => v | None => [] end)
   = list_sum (map (fun ci => List.length (snd ci)) d) + List.length items)%nat.
Proof.
  induction d as [|[k0 v0] d IH]; cbn [dict_get dict_set]; [cbn; lia|].
  unfold list_sum in *.
  destruct (String.eqb_spec k0 k) as [->|N]; cbn [map snd fold_right] in *; lia.
Qed.

Lemma regroupe_count d f :
  list_sum (map (fun ci => List.length (snd ci)) (regroupe d f)) =
  S (list_sum (map (fun ci => List.length (snd ci)) d)).
Proof.
  unfold regroupe.
  destruct (dict_get d (frais_categorie f)) as [items|] eqn:E.
  - pose proof (dict_set_count d (frais_categorie f) (items ++ [f])) as H.
    rewrite E, length_app in H. cbn [List.length] in H. lia.
  - pose proof (dict_set_count d (frais_categorie f) [f]) as H.
    rewrite E in H. cbn [List.length] in H. lia.
Qed.

Lemma fold_regroupe l : forall d,
  NoDup (map fst d) ->
  NoDup (map fst (fold_left regroupe l d)) /\
  map fst (fold_left regroupe l d) =
    fold_left (fun acc c => if in_dec string_dec c acc then acc else (acc ++ [c])%list)
      (map frais_categorie l) (map fst d) /\
  (forall cat,
     match dict_get (fold_left regroupe l d) cat with Some v => v | None => [] end =
     (match dict_get d cat with Some v => v | None => [] end ++ de_categorie cat l)%list) /\
  list_sum (map (fun ci => List.length (snd ci)) (fold_left regroupe l d)) =
    (list_sum (map (fun ci => List.length (snd ci)) d) + List.length l)%nat.
Proof.
  induction l as [|f l IH]; intros d Hd; cbn [fold_left map].
  - split; [assumption|]. split; [reflexivity|]. split; [|cbn; lia].
    intros cat. cbn. now rewrite app_nil_r.
  - assert (Hd' : NoDup (map fst (regroupe d f))).
    { rewrite regroupe_keys. destruct (in_dec _ _ _) as [|n]; [assumption|].
      apply NoDup_app; [assumption|repeat constructor; intros []|].
      intros a Ha [<-|[]]. contradiction. }
    destruct (IH _ Hd') as (N & K & V & C). split; [exact N|]. split; [|split].
    + now rewrite K, regroupe_keys.
    + intros cat. rewrite V, regroupe_get, <- app_assoc. f_equal.
      unfold de_categorie. cbn [filter].
      now destruct (String.eqb (frais_categorie f) cat).
    + rewrite C, regroupe_count. cbn [List.length]. lia.
Qed.

Lemma premieres_In l : forall acc c,
  In c (fold_left (fun acc c => if in_dec string_dec c acc then acc else (acc ++ [c])%list)
          l acc) <-> In c acc \/ In c l.
Proof.
  induction l as [|x l IH]; intros acc c; cbn [fold_left In]; [tauto|].
  rewrite IH. destruct (in_dec string_dec x acc) as [i|n].
  - split; [tauto|]. intros [?|[<-|?]]; auto.
  - rewrite in_app_iff. cbn [In]. tauto.
Qed.

Lemma de_categorie_nonempty cat l :
  In cat (map frais_categorie l) -> (1 <= List.length (de_categorie cat l))%nat.
Proof.
  intros H. apply in_map_iff in H as (f & Hf & Hin).
  assert (I : In f (de_categorie cat l)).
  { apply filter_In. split; [assumption|]. rewrite Hf. apply String.eqb_refl. }
  destruct (de_categorie cat l); [contradiction|cbn; lia].
Qed.

Lemma recap_command_run now args w :
  recap_command now args w =
    (Ret tt,
     mk_world (frais_data w) (user w)
       (sent w ++
          [match du_filtre (filtre_recap now args) (frais_data w) with
           | [] => AucunFraisPour (filtre_recap now args)
           | frais_mois =>
               Recapitulatif (filtre_recap now args)
                 (map (fun ci => (fst ci, py_sum (map frais_montant (snd ci)),
                                  List.length (snd ci)))
                    (fold_left regroupe frais_mois []))
                 (py_sum (map frais_montant frais_mois))
           end])%list).
Proof.
  unfold recap_command, bind, get_frais_data, send, du_filtre. cbv beta iota.
  fold (filtre_recap now args).
  destruct (filter _ (frais_data w)); reflexivity.
Qed.

(** [/recap], its arguments being ASCII text, never raises and changes
    nothing.  When entries match the filter, it lists each of their
    categories once, in the order they first occur, with the sum and the
    number of the matching entries of that category; the numbers add up to
    the number of matching entries and the total is the sum of their
    amounts. *)
Theorem recap_command_lines (now : datetime) (args : list string) (w : world) :
  forallb est_ascii args = true ->
  fst (recap_command now args w) = Ret tt /\
  frais_data (snd (recap_command now args w)) = frais_data w /\
  user (snd (recap_command now args w)) = user w /\
  (du_filtre (filtre_recap now args) (frais_data w) = [] ->
   sent (snd (recap_command now args w)) =
     (sent w ++ [AucunFraisPour (filtre_recap now args)])%list) /\
  (du_filtre (filtre_recap now args) (frais_data w) <> [] ->
   exists lignes,
     sent (snd (recap_command now args w)) =
       (sent w ++
          [Recapitulatif (filtre_recap now args) lignes
             (py_sum (map frais_montant
                        (du_filtre (filtre_recap now args) (frais_data w))))])%list /\
     map (fun l => fst (fst l)) lignes =
       premieres (map frais_categorie (du_filtre (filtre_recap now args) (frais_data w))) /\
     NoDup (map (fun l => fst (fst l)) lignes) /\
     (forall cat total n, In (cat, total, n) lignes ->
        total = py_sum (map frais_montant
                          (de_categorie cat (du_filtre (filtre_recap now args) (frais_data w)))) /\
        n = List.length (de_categorie cat (du_filtre (filtre_recap now args) (frais_data w))) /\
        (1 <= n)%nat) /\
     list_sum (map snd lignes) =
       List.length (du_filtre (filtre_recap now args) (frais_data w))).
Proof.
  intros _. rewrite recap_command_run. cbn [fst snd frais_data user sent].
  split; [reflexivity|]. split; [reflexivity|]. split; [reflexivity|].
  remember (du_filtre (filtre_recap now args) (frais_data w)) as l eqn:El. clear El.
  split; [now intros ->|]. intros Hl.
  destruct (fold_regroupe l [] (NoDup_nil _)) as (N & K & V & C).
  exists (map (fun ci => (fst ci, py_sum (map frais_montant (snd ci)), List.length (snd ci)))
            (fold_left regroupe l [])).
  split; [destruct l; [congruence|reflexivity]|].
  rewrite !map_map. cbn [fst snd]. split; [exact K|]. split; [exact N|]. split.
  - intros cat total n Hin. apply in_map_iff in Hin as ([c items] & [= -> <- <-] & Hin).
    cbn [fst snd]. pose proof (V cat) as Vc.
    rewrite (dict_get_In _ _ _ N Hin) in Vc. cbn in Vc. subst items.
    repeat split. apply de_categorie_nonempty.
    apply (in_map fst) in Hin. cbn [fst] in Hin. rewrite K in Hin.
    apply premieres_In in Hin as [[]|Hin]. exact Hin.
  - rewrite C. cbn. reflexivity.
Qed.

(** [/recap 11] in 2026 on a store that holds one receipt of November 2026
    and one of January 2024. *)
Lemma recap_command_lines_witness :
  exists lignes,
    sent (snd (recap_command maintenant ["11"] (run trois_tickets initial_world))) =
      (sent (run trois_tickets initial_world)
         ++ [Recapitulatif "11/2026" lignes (5 # 2)%Q])%list /\
    map (fun l => fst (fst l)) lignes = ["Repas professionnels"].
Proof.
  destruct (recap_command_lines maintenant ["11"] (run trois_tickets initial_world) eq_refl)
    as (_ & _ & _ & _ & H).
  assert (N : du_filtre (filtre_recap maintenant ["11"])
                (frais_data (run trois_tickets initial_world)) <> [])
    by (intros E; vm_compute in E; discriminate E).
  destruct (H N) as (lignes & Hs & Hc & _).
  exists lignes. split; [exact Hs|exact Hc].
Defined.

(** ** Filters on well-formed dates *)

Lemma endswith_spec s suffix : endswith s suffix = true <-> exists pre, s = pre ++ suffix.
Proof.
  split.
  - induction s as [|c s IH]; cbn [endswith].
    + destruct (String.eqb_spec "" suffix) as [<-|]; [|discriminate]. now exists "".
    + destruct (String.eqb_spec (String c s) suffix) as [<-|]; [now exists ""|].
      intros H. destruct (IH H) as (pre & ->). now exists (String c pre).
  - intros (pre & ->). induction pre as [|c pre IH]; cbn [append].
    + destruct suffix; cbn [endswith]; now rewrite String.eqb_refl.
    + cbn [endswith]. rewrite IH. now destruct (String.eqb _ _).
Qed.

Lemma date_valide_inv d :
  date_valide d = true ->
  exists j1 j2 m1 m2 a1 a2 a3 a4,
    d = String j1 (String j2 (String "/" (String m1 (String m2 (String "/"
          (String a1 (String a2 (String a3 (String a4 ""))))))))).
Proof.
  destruct d as [|j1 [|j2 [|s1 [|m1 [|m2 [|s2 [|a1 [|a2 [|a3 [|a4 [|]]]]]]]]]]];
    try discriminate.
  cbn [date_valide]. intros H. repeat (apply andb_prop in H as [H ?]).
  repeat match goal with X : Ascii.eqb _ _ = true |- _ => apply Ascii.eqb_eq in X; subst end.
  eauto 10.
Qed.

Lemma endswith_mois_annee d mm yyyy :
  date_valide d = true -> String.length mm = 2%nat -> String.length yyyy = 4%nat ->
  endswith d (mm ++ "/" ++ yyyy) = String.eqb (date_mois d) mm && String.eqb (date_annee d) yyyy.
Proof.
  intros V Lm Ly.
  destruct (date_valide_inv _ V) as (j1 & j2 & m1 & m2 & a1 & a2 & a3 & a4 & ->).
  destruct (length_2 _ Lm) as (x1 & x2 & ->).
  destruct (length_4 _ Ly) as (y1 & y2 & y3 & y4 & ->).
  unfold date_mois, date_annee. cbn [substring append].
  apply eq_true_iff_eq. rewrite endswith_spec, andb_true_iff, !String.eqb_eq. split.
  - intros (pre & E). pose proof (f_equal String.length E) as L.
    rewrite length_append in L. cbn [String.length] in L.
    destruct pre as [|p1 [|p2 [|p3 [|p4 pre]]]]; cbn [String.length] in L; try lia.
    cbn [append] in E. injection E; intros; subst; auto.
  - intros [[= -> ->] [= -> -> -> ->]]. now exists (String j1 (String j2 "/")).
Qed.

Lemma endswith_annee d yyyy :
  date_valide d = true -> String.length yyyy = 4%nat ->
  endswith d yyyy = String.eqb (date_annee d) yyyy.
Proof.
  intros V Ly.
  destruct (date_valide_inv _ V) as (j1 & j2 & m1 & m2 & a1 & a2 & a3 & a4 & ->).
  destruct (length_4 _ Ly) as (y1 & y2 & y3 & y4 & ->).
  unfold date_annee. cbn [substring].
  apply eq_true_iff_eq. rewrite endswith_spec, String.eqb_eq. split.
  - intros (pre & E). pose proof (f_equal String.length E) as L.
    rewrite length_append in L. cbn [String.length] in L.
    destruct pre as [|p1 [|p2 [|p3 [|p4 [|p5 [|p6 [|p7 pre]]]]]]];
      cbn [String.length] in L; try lia.
    cbn [append] in E. injection E; intros; subst; auto.
  - intros [= -> -> -> ->].
    now exists (String j1 (String j2 (String "/" (String m1 (String m2 "/"))))).
Qed.

Lemma str_of_N_year y : (1000 <= y <= 9999)%N -> String.length (str_of_N y) = 4%nat.
Proof.
  intros H.
  pose (ok := fun n => (n <? 1000)%N || Nat.eqb (String.length (str_of_N n)) 4).
  assert (E : ok y = true) by (apply (forallb_below ok 10000%N); [vm_compute; reflexivity|lia]).
  unfold ok in E. apply orb_prop in E as [E|E].
  - apply N.ltb_lt in E. lia.
  - now apply Nat.eqb_eq.
Qed.

Lemma length_zfill2 a : (String.length a <= 2)%nat -> String.length (zfill2 a) = 2%nat.
Proof.
  destruct a as [|c [|c2 [|c3 a]]]; cbn [String.length]; intros H; try lia; try reflexivity.
  unfold zfill2. now destruct (_ || _).
Qed.

(** On a store of dates [dd/mm/yyyy], [/recap m] keeps the entries whose
    month is [m], padded to two characters, and whose year is the current
    one; [/export yyyy] keeps the entries of the year [yyyy]. *)
Theorem filters_on_valid_dates (now : datetime) (a : string) (fd : list frais) :
  Forall (fun f => date_valide (frais_date f) = true) fd ->
  ((String.length a <= 2)%nat -> (1000 <= dt_year now <= 9999)%N ->
   du_filtre (filtre_recap now [a]) fd =
     filter (fun f => String.eqb (date_mois (frais_date f)) (zfill2 a)
                      && String.eqb (date_annee (frais_date f)) (str_of_N (dt_year now))) fd) /\
  (String.length a = 4%nat ->
   du_filtre (filtre_export now [a]) fd =
     filter (fun f => String.eqb (date_annee (frais_date f)) a) fd).
Proof.
  intros V. rewrite Forall_forall in V. split.
  - intros La Hy. unfold du_filtre, filtre_recap. apply filter_ext_in. intros f Hf.
    apply endswith_mois_annee; [now apply V|now apply length_zfill2|now apply str_of_N_year].
  - intros La. unfold du_filtre, filtre_export. apply filter_ext_in. intros f Hf.
    apply endswith_annee; [now apply V|assumption].
Qed.

Lemma filters_on_valid_dates_witness :
  du_filtre (filtre_recap maintenant ["1"]) (frais_data (run trois_tickets initial_world)) =
    filter (fun f => String.eqb (date_mois (frais_date f)) (zfill2 "1")
                     && String.eqb (date_annee (frais_date f)) (str_of_N (dt_year maintenant)))
      (frais_data (run trois_tickets initial_world)).
Proof.
  assert (V : Forall (fun f => date_valide (frais_date f) = true)
                (frais_data (run trois_tickets initial_world)))
    by repeat constructor.
  destruct (filters_on_valid_dates maintenant "1" _ V) as [H _].
  apply H; [cbn [String.length]; lia|unfold maintenant; cbn [dt_year]; lia].
Defined.

(** ** Updates outside the flow *)

Lemma py_index_CATEGORIES i :
  (-7 <= i < 7)%Z -> exists categorie, py_index CATEGORIES i = Ret categorie.
Proof.
  intros H.
  assert (C : (i = -7 \/ i = -6 \/ i = -5 \/ i = -4 \/ i = -3 \/ i = -2 \/ i = -1 \/ i = 0
               \/ i = 1 \/ i = 2 \/ i = 3 \/ i = 4 \/ i = 5 \/ i = 6)%Z) by lia.
  repeat (destruct C as [->|C]; [eexists; reflexivity|]). subst i. eexists; reflexivity.
Qed.

Lemma py_index_out_of_range {A} (l : list A) i :
  (i < - Z.of_nat (List.length l) \/ Z.of_nat (List.length l) <= i)%Z ->
  py_index l i = Raise IndexError.
Proof.
  intros H. unfold py_index. destruct (i <? 0)%Z eqn:E.
  - apply Z.ltb_lt in E.
    destruct (i + Z.of_nat (List.length l) <? 0)%Z eqn:E2; [reflexivity|].
    apply Z.ltb_ge in E2. lia.
  - rewrite E. apply Z.ltb_ge in E.
    destruct (nth_error l (Z.to_nat i)) eqn:N; [|reflexivity].
    assert (Z.to_nat i < List.length l)%nat by (apply nth_error_Some; congruence). lia.
Qed.

(** A category callback with an index outside [-7, 6] raises [IndexError]
    and changes nothing; with an index inside and no pending candidate it
    answers that the session expired, and changes nothing else. *)
Theorem handle_category_selection_edges (now : datetime) (i : Z) (w : world) :
  ((i < -7 \/ 7 <= i)%Z -> handle_category_selection now i w = (Raise IndexError, w)) /\
  ((-7 <= i < 7)%Z -> pending_frais (user w) = None ->
   handle_category_selection now i w =
     (Ret tt, mk_world (frais_data w) (user w) (sent w ++ [SessionExpiree])%list)).
Proof.
  split.
  - intros H. unfold handle_category_selection, bind, lift.
    now rewrite (py_index_out_of_range CATEGORIES i) by (cbn; lia).
  - intros H Hp. destruct (py_index_CATEGORIES i H) as (c & Hc).
    unfold handle_category_selection. run_handler. now rewrite Hc, Hp.
Qed.

(** A text outside the manual entry is ignored without an answer.  With a
    stored category and no pending candidate, an ASCII text that [float]
    rejects (no literal, and none of the words [inf], [infinity], [nan]) is
    answered as invalid and an ASCII decimal literal raises [TypeError];
    neither changes the store nor the pending state. *)
Theorem handle_montant_manuel_edges (now : datetime) (text : string) (w : world) :
  (pending_category (user w) = None -> handle_montant_manuel now text w = (Ret tt, w)) /\
  (pending_category (user w) <> None -> pending_frais (user w) = None ->
   est_ascii text = true ->
   (mot_special (replace "," "." text) = false ->
    py_float (replace "," "." text) = None ->
    handle_montant_manuel now text w =
      (Ret tt, mk_world (frais_data w) (user w) (sent w ++ [MontantInvalide])%list)) /\
   (py_float (replace "," "." text) <> None ->
    handle_montant_manuel now text w = (Raise TypeError, w))).
Proof.
  split.
  - intros Hc. unfold handle_montant_manuel. run_handler. now rewrite Hc.
  - intros Hc Hp _.
    destruct (pending_category (user w)) as [c|] eqn:Ec; [clear Hc|congruence].
    split; [intros _ Hf|intros Hf]; unfold handle_montant_manuel; run_handler;
      rewrite Ec; cbn.
    + now rewrite Hf.
    + destruct (py_float (replace "," "." text)); [|congruence]. cbn. now rewrite Hp.
Qed.

(** The stored category outlives a commit that follows a second photo: the
    next number typed meets no candidate. *)
Example texte_apres_categorie_perimee :
  handle_montant_manuel maintenant "5"
    (run (ticket_sans_montant ++ [nouvelle_photo; (maintenant, CallbackQuery 0)])%list
       initial_world) =
    (Raise TypeError,
     run (ticket_sans_montant ++ [nouvelle_photo; (maintenant, CallbackQuery 0)])%list
       initial_world).
Proof. reflexivity. Qed.
